(** * A shallow embedding of the question-answering service (src/app.py)

    The Flask application answers natural-language questions about tabular
    data: it reads the schema of a SQLite file, asks a hosted model for a
    query, runs it, retries once with the error text on failure, and asks the
    model to paraphrase the rows.  A second route stores uploaded CSV/XLSX
    files as tables.

    The Python code is embedded as Rocq functions.  What lies outside the
    repository (the hosted model, SQLite behind SQLAlchemy, the file system,
    pandas) is a record of oracles, [World]; everything the handlers do with
    the values those oracles return is written out. *)

From Stdlib Require Import NArith ZArith String Ascii.
From stdpp Require Import base option list gmap.

Local Open Scope N_scope.
Local Open Scope list_scope.

(** ** Python [str]: sequences of Unicode code points *)

Abbreviation str := (list N).

(** A literal of the source, given by its ASCII text. *)
Definition lit (s : string) : str :=
  List.map N_of_ascii (list_ascii_of_string s).

Arguments lit : simpl never.

Definition nl : str := [10].          (* "\n" *)
Definition dq : str := [34].          (* the double quote character *)
Definition bt : str := [96].          (* the backtick character *)

(** [s.startswith(p)] *)
Fixpoint startswith (s p : str) {struct p} : bool :=
  match p, s with
  | [], _ => true
  | _ :: _, [] => false
  | a :: p', b :: s' => (a =? b) && startswith s' p'
  end.

(** [str.isspace] on one code point; [\s] of a [str] pattern tests the same
    predicate (Py_UNICODE_ISSPACE). *)
Definition isspace (c : N) : bool :=
  ((9 <=? c) && (c <=? 13)) || ((28 <=? c) && (c <=? 32))
  || (c =? 133) || (c =? 160) || (c =? 5760)
  || ((8192 <=? c) && (c <=? 8202))
  || (c =? 8232) || (c =? 8233) || (c =? 8239) || (c =? 8287) || (c =? 12288).

(** [s.lstrip()], [s.rstrip()], [s.strip()] *)
Fixpoint lstrip (s : str) : str :=
  match s with
  | c :: s' => if isspace c then lstrip s' else s
  | [] => []
  end.

Definition rstrip (s : str) : str := rev (lstrip (rev s)).
Definition strip (s : str) : str := rstrip (lstrip s).

(** [s.replace(old, new)] for a one-character [old]. *)
Definition replace_char (old : N) (new : str) (s : str) : str :=
  flat_map (fun c => if c =? old then new else [c]) s.

(** [s.lower()] on the ASCII letters (the extensions the upload route
    compares are ASCII). *)
Definition lower_char (c : N) : N :=
  if (65 <=? c) && (c <=? 90) then c + 32 else c.
Definition lower (s : str) : str := List.map lower_char s.

Fixpoint str_eqb (a b : str) : bool :=
  match a, b with
  | [], [] => true
  | x :: a', y :: b' => (x =? y) && str_eqb a' b'
  | _, _ => false
  end.

(** ** The extraction pattern

    [re.search(r"```sql\s*([\s\S]*?)\s*```", raw_response, re.IGNORECASE)]

    The matcher below is the backtracking search of Python's [re] written in
    continuation-passing style, one function per construct of the
    pattern. *)
Module Re.

(** A literal character [p] of the pattern under [re.IGNORECASE]: the
    subject character matches when its lower case is [p]; for [s] the
    engine also accepts U+017F (long s), its only other case variant.
    The literals of this pattern are the backtick and [s], [q], [l]. *)
Definition literal_ignore (p c : N) : bool :=
  (lower_char c =? p) || ((p =? 115) && (c =? 383)).

(** A run of literals at the head of [s]; the rest of [s] on success. *)
Fixpoint literals (p : str) (s : str) : option str :=
  match p, s with
  | [], _ => Some s
  | _ :: _, [] => None
  | a :: p', c :: s' => if literal_ignore a c then literals p' s' else None
  end.

(** [\s*], greedy: the longest run of white space first, then shorter
    ones. *)
Fixpoint space_star {A} (k : str -> option A) (s : str) : option A :=
  match s with
  | c :: s' =>
      if isspace c
      then match space_star k s' with
           | Some r => Some r
           | None => k s
           end
      else k s
  | [] => k s
  end.

(** [([\s\S]*?)], lazy: the shortest group first; [acc] is the group so
    far. *)
Fixpoint any_lazy {A} (k : str -> str -> option A) (acc s : str) : option A :=
  match k acc s with
  | Some r => Some r
  | None =>
      match s with
      | [] => None
      | c :: s' => any_lazy k (acc ++ [c]) s'
      end
  end.

Definition open_fence : str := lit "```sql".
Definition close_fence : str := lit "```".

(** The whole pattern anchored at the head of [s]; group 1 on success. *)
Definition match_here (s : str) : option str :=
  match literals open_fence s with
  | None => None
  | Some s1 =>
      space_star
        (fun s2 =>
           any_lazy
             (fun g s3 =>
                space_star
                  (fun s4 =>
                     match literals close_fence s4 with
                     | Some _ => Some g
                     | None => None
                     end)
                  s3)
             [] s2)
        s1
  end.

(** [re.search]: the leftmost position where the pattern matches. *)
Fixpoint search (s : str) : option str :=
  match match_here s with
  | Some g => Some g
  | None => match s with [] => None | _ :: s' => search s' end
  end.

End Re.

Arguments Re.open_fence : simpl never.
Arguments Re.close_fence : simpl never.

(** ** Exceptions, results and the outside world *)

(** The Python exceptions the handlers can meet.  [StatementError] stands for
    [sqlalchemy.exc.StatementError] and its subclasses (the DBAPI errors),
    which carry the driver's exception in [.orig]; [SQLAlchemyError] for the
    other subclasses of that base class (such as [ResourceClosedError]),
    named by [cls], which have no [.orig]. *)
Inductive exn :=
| StatementError (orig : str) (msg : str)
| SQLAlchemyError (cls : str) (msg : str)
| AttributeError (msg : str)
| OtherException (msg : str).

(** [str(e)] *)
Definition exn_str (e : exn) : str :=
  match e with
  | StatementError _ m | SQLAlchemyError _ m | AttributeError m
  | OtherException m => m
  end.

Inductive outcome (A : Type) :=
| Ret (a : A)
| Raise (e : exn).
Arguments Ret {A} a.
Arguments Raise {A} e.

(** A row of [PRAGMA table_info]: (cid, name, type, notnull, dflt_value, pk). *)
Record colinfo := ColInfo {
  cid : N;
  col_name : str;
  col_type : str;
  notnull : N;
  dflt_value : option str;
  pk : N
}.

(** What one call of [execute_sql] meets: [engine.connect()] raises, or
    [conn.execute(text(sql)).fetchall()] returns rows or raises. *)
Inductive exec_outcome (Row : Type) :=
| ConnectRaises (e : exn)
| Fetched (rows : list Row)
| ExecuteRaises (e : exn).
Arguments ConnectRaises {Row} e.
Arguments Fetched {Row} rows.
Arguments ExecuteRaises {Row} e.

(** What [/ask] does to the outside, in order: a call of the model, or a call
    of [execute_sql] with the statement the model wrote.  The statements that
    [get_db_schema] runs to read the schema are not events. *)
Inductive event :=
| ModelCall (prompt : str)
| SqlExec (db_file sql_query : str).

Definition is_model_call (e : event) : bool :=
  match e with ModelCall _ => true | _ => false end.
Definition is_sql_exec (e : event) : bool :=
  match e with SqlExec _ _ => true | _ => false end.

Definition model_calls (tr : list event) : nat :=
  length (List.filter is_model_call tr).
Definition sql_execs (tr : list event) : nat :=
  length (List.filter is_sql_exec tr).

(** JSON values of the request body: [None], a string, or any other value,
    kept as what [str()] prints for it. *)
Inductive jval :=
| JNull
| JStr (s : str)
| JOther (printed : str).

(** [f"{v}"] *)
Definition fmt (v : jval) : str :=
  match v with
  | JNull => lit "None"
  | JStr s => s
  | JOther p => p
  end.

(** The JSON object posted to [/ask]; a missing key reads as [JNull], as
    [data.get] does. *)
Record Request := { question : jval; chat_type : jval }.

(** What [request.json] gives for a body that holds JSON: an object, or
    another value (array, string, number, boolean, null), kept as the name of
    its Python type.  A body that is not JSON never reaches the handler's
    code: Flask answers it. *)
Inductive json_body :=
| BodyObject (req : Request)
| BodyOther (type_name : str).

(** [jsonify({"error": ..})], [jsonify({"answer": ..})],
    [jsonify({"message": ..})] with the HTTP status. *)
Inductive body :=
| ErrorBody (msg : str)
| AnswerBody (msg : str)
| MessageBody (msg : str).

Record Response := { resp_body : body; status : N }.

Definition STORED_DB : str := lit "data/sqldb.db".
Definition UPLOADED_DB : str := lit "data/uploaded_files_sqldb.db".

Section App.

(** The result rows of a query and how Python prints one of them. *)
Context {Row : Type} (repr_row : Row -> str).

Record World := {
  (** [os.path.exists] *)
  path_exists : str -> bool;
  (** [model.generate_content(prompt).text], for the n-th call *)
  generate_content : nat -> str -> outcome str;
  (** the names that [SELECT name FROM sqlite_master WHERE type='table']
      returns on a connection to the file (or what connecting or the query
      raises) *)
  sqlite_master : str -> outcome (list str);
  (** [PRAGMA table_info(`table`)] on the file *)
  table_info : str -> str -> outcome (list colinfo);
  (** the n-th call of [execute_sql], on a file and a statement *)
  run_query : nat -> str -> str -> exec_outcome Row
}.

Context (w : World).

(** *** State and exceptions: the trace of events is threaded through. *)
Definition M (A : Type) : Type := list event -> outcome A * list event.

Definition ret {A} (a : A) : M A := fun tr => (Ret a, tr).
Definition raise {A} (e : exn) : M A := fun tr => (Raise e, tr).
Definition bind {A B} (c : M A) (k : A -> M B) : M B :=
  fun tr =>
    match c tr with
    | (Ret a, tr') => k a tr'
    | (Raise e, tr') => (Raise e, tr')
    end.
(** [try: c except Exception as e: h(e)] *)
Definition try_except {A} (c : M A) (h : exn -> M A) : M A :=
  fun tr =>
    match c tr with
    | (Ret a, tr') => (Ret a, tr')
    | (Raise e, tr') => h e tr'
    end.
(** An oracle's answer enters the monad. *)
Definition lift {A} (o : outcome A) : M A := fun tr => (o, tr).

Notation "'do' x <- c ; k" := (bind c (fun x => k))
  (at level 10, x name, c at level 100, k at level 200).

(** *** Helper functions of app.py *)

Definition ask_gemini (prompt : str) : M str :=
  fun tr =>
    (generate_content w (model_calls tr) prompt, tr ++ [ModelCall prompt]).

(** The text one table adds to [schema_str]. *)
Definition column_line (col : colinfo) : str :=
  lit "- " ++ dq ++ col_name col ++ dq ++ nl.

Definition table_header (table_name : str) : str :=
  lit "Table: " ++ bt ++ table_name ++ bt ++ nl ++ lit "Columns:" ++ nl.

(** The loop [for table in table_names] of [get_db_schema]. *)
Fixpoint schema_loop (db_file : str) (table_names : list str)
         (schema_str : str) : M str :=
  match table_names with
  | [] => ret schema_str
  | table_name :: rest =>
      if startswith table_name (lit "sqlite_")
      then schema_loop db_file rest schema_str
      else
        let schema_str := schema_str ++ table_header table_name in
        do columns <- lift (table_info w db_file table_name);
        let schema_str :=
          fold_left (fun acc col => acc ++ column_line col) columns schema_str in
        let schema_str := schema_str ++ nl in
        schema_loop db_file rest schema_str
  end.

Definition get_db_schema (db_file : str) : M str :=
  do table_names <- lift (sqlite_master w db_file);
  schema_loop db_file table_names [].

(** What [execute_sql] returns: the rows, or the error string. *)
Inductive sql_result :=
| ResultRows (rows : list Row)
| ResultStr (s : str).

Definition execute_sql (db_file sql_query : str) : M sql_result :=
  fun tr =>
    let tr' := tr ++ [SqlExec db_file sql_query] in
    match run_query w (sql_execs tr) db_file sql_query with
    | ConnectRaises e => (Raise e, tr')
    | Fetched rows => (Ret (ResultRows rows), tr')
    | ExecuteRaises (StatementError orig _) =>
        (Ret (ResultStr (lit "SQL Error: " ++ orig)), tr')
    | ExecuteRaises (SQLAlchemyError cls _) =>
        (Raise (AttributeError
                  (lit "'" ++ cls ++ lit "' object has no attribute 'orig'")),
         tr')
    | ExecuteRaises e => (Raise e, tr')
    end.

(** [", ".join(xs)] *)
Fixpoint join_comma (xs : list str) : str :=
  match xs with
  | [] => []
  | [x] => x
  | x :: rest => x ++ lit ", " ++ join_comma rest
  end.

(** [str(result)]: a list prints its rows in brackets, a string is
    itself. *)
Definition py_str (r : sql_result) : str :=
  match r with
  | ResultRows rows => lit "[" ++ join_comma (List.map repr_row rows) ++ lit "]"
  | ResultStr s => s
  end.

(** *** The route [/ask] *)

(** [STORED_DB if chat_type == "sql-stored" else UPLOADED_DB] *)
Definition select_db (chat_type : jval) : str :=
  match chat_type with
  | JStr s => if str_eqb s (lit "sql-stored") then STORED_DB else UPLOADED_DB
  | _ => UPLOADED_DB
  end.

(** The prompt of attempt 0. *)
Definition first_prompt (db_schema : str) (question : jval) : str :=
  lit "You are an expert SQLite writer. You MUST follow these rules:" ++ nl
  ++ lit "1. **CRITICAL RULE:** Column names with spaces or special characters MUST be enclosed in double quotes ("
  ++ dq ++ lit "). For example, to use a column named 'Recharge from Rainfall-MON', you must write `SELECT "
  ++ dq ++ lit "Recharge from Rainfall-MON" ++ dq ++ lit "`." ++ nl
  ++ lit "2. To find the total recharge from rainfall, you MUST add the "
  ++ dq ++ lit "Recharge from Rainfall-MON" ++ dq ++ lit " and "
  ++ dq ++ lit "Recharge from Rainfall-NM" ++ dq ++ lit " columns together." ++ nl ++ nl
  ++ lit "Here is the database schema:" ++ nl ++ db_schema ++ nl ++ nl
  ++ lit "---" ++ nl ++ nl
  ++ lit "Based on all the rules and the schema, write a single, valid SQLite query to answer the question: "
  ++ fmt question.

(** The prompt of a later attempt: it carries the failed text and its
    error. *)
Definition retry_prompt (db_schema : str) (question : jval)
           (sql_query result_str : str) : str :=
  lit "The previous attempt failed. Please fix it. You MUST follow these rules:" ++ nl
  ++ lit "1. **CRITICAL RULE:** Column names with spaces or special characters MUST be enclosed in double quotes ("
  ++ dq ++ lit ")." ++ nl
  ++ lit "2. To find total rainfall recharge, you MUST add "
  ++ dq ++ lit "Recharge from Rainfall-MON" ++ dq ++ lit " and "
  ++ dq ++ lit "Recharge from Rainfall-NM" ++ dq ++ lit "." ++ nl ++ nl
  ++ lit "Schema:" ++ nl ++ db_schema ++ nl
  ++ lit "Original Question: " ++ fmt question ++ nl
  ++ lit "Failed Response/Query: " ++ sql_query ++ nl
  ++ lit "Error Message: " ++ result_str ++ nl ++ nl
  ++ lit "Provide only the corrected, valid SQLite query inside a ```sql code block.".

Definition answer_prompt (question : jval) (result_str : str) : str :=
  lit "User Question: " ++ fmt question ++ nl
  ++ lit "SQL Result: " ++ result_str ++ nl ++ nl
  ++ lit "Provide a clear, natural language answer.".

Definition no_block_error : str :=
  lit "SQL Error: The AI response did not contain a valid SQL code block.".

Definition max_retries : nat := 2.

(** [if attempt == 0: prompt = ... else: prompt = ...] *)
Definition attempt_prompt (db_schema : str) (question : jval)
           (attempt : nat) (sql_query result_str : str) : str :=
  match attempt with
  | O => first_prompt db_schema question
  | S _ => retry_prompt db_schema question sql_query result_str
  end.

(** One pass through the body of [for attempt in range(max_retries)], up
    to the test that decides on [break]: the new [sql_query] and
    [result_str]. *)
Definition attempt_body (db_file db_schema : str) (question : jval)
           (attempt : nat) (sql_query result_str : str) : M (str * str) :=
  let prompt :=
    attempt_prompt db_schema question attempt sql_query result_str in
  do raw_response <- ask_gemini prompt;
  match Re.search raw_response with
  | Some group1 =>
      let sql_query := strip group1 in
      do result <- execute_sql db_file sql_query;
      ret (sql_query, py_str result)
  | None => ret (raw_response, no_block_error)
  end.

(** The [for] loop with its [break]; [remaining] counts the passes left
    in [range(max_retries)]. *)
Fixpoint retry_loop (db_file db_schema : str) (question : jval)
         (remaining attempt : nat) (sql_query result_str : str)
  : M (str * str) :=
  match remaining with
  | O => ret (sql_query, result_str)
  | S remaining' =>
      do vars <- attempt_body db_file db_schema question attempt
                              sql_query result_str;
      if negb (startswith (snd vars) (lit "SQL Error:"))
      then ret vars
      else retry_loop db_file db_schema question remaining' (S attempt)
                      (fst vars) (snd vars)
  end.

Definition respond (b : body) (code : N) : M Response :=
  ret {| resp_body := b; status := code |}.

(** What follows the loop: the terminal failure message, or the
    paraphrase. *)
Definition finish (question : jval) (result_str : str) : M Response :=
  if startswith result_str (lit "SQL Error:")
  then
    respond (AnswerBody
               (lit "I tried to answer, but the process failed with an error: "
                ++ result_str)) 200
  else
    do answer <- ask_gemini (answer_prompt question result_str);
    respond (AnswerBody answer) 200.

(** The handler once [db_file] is chosen. *)
Definition ask_on (question : jval) (db_file : str) : M Response :=
  if negb (path_exists w db_file)
  then respond (ErrorBody (lit "DB file " ++ db_file ++ lit " does not exist")) 400
  else
    try_except
      (do db_schema <- get_db_schema db_file;
       match db_schema with
       | [] =>
           respond (ErrorBody (lit "No tables found in the database: " ++ db_file)) 400
       | _ :: _ =>
           do vars <- retry_loop db_file db_schema question max_retries 0 [] [];
           finish question (snd vars)
       end)
      (fun e =>
         respond (ErrorBody (lit "An unexpected error occurred: " ++ exn_str e)) 500).

Definition ask (req : Request) : M Response :=
  ask_on (question req) (select_db (chat_type req)).

(** The view function from its first line: [data = request.json] and the two
    [data.get], which are outside the [try]; on a value that is not an
    object [data.get] raises. *)
Definition ask_view (data : json_body) : M Response :=
  match data with
  | BodyObject req => ask req
  | BodyOther type_name =>
      raise (AttributeError
               (lit "'" ++ type_name ++ lit "' object has no attribute 'get'"))
  end.

End App.

Arguments ResultRows {Row} rows.
Arguments ResultStr {Row} s.


(** ** The route [/upload] *)

(** [posixpath.splitext], as [genericpath._splitext] computes it. *)
Module Path.

(** [p.rfind(c)]: the last index of [c] in [p], or -1. *)
Fixpoint rfind_from (c : N) (p : str) (i last : Z) : Z :=
  match p with
  | [] => last
  | x :: p' => rfind_from c p' (i + 1)%Z (if x =? c then i else last)
  end.
Definition rfind (c : N) (p : str) : Z := rfind_from c p 0%Z (-1)%Z.

(** The [while filenameIndex < dotIndex] loop that skips leading dots:
    [true] when it returns the split, [false] when it runs out. *)
Fixpoint name_before_dot (p : str) (filenameIndex steps : nat) : bool :=
  match steps with
  | O => false
  | S steps' =>
      match p !! filenameIndex with
      | Some c =>
          if c =? 46 then name_before_dot p (S filenameIndex) steps' else true
      | None => true
      end
  end.

Definition splitext (p : str) : str * str :=
  let sepIndex := rfind 47 p in
  let dotIndex := rfind 46 p in
  if (sepIndex <? dotIndex)%Z
  then
    let filenameIndex := (sepIndex + 1)%Z in
    if name_before_dot p (Z.to_nat filenameIndex)
                       (Z.to_nat (dotIndex - filenameIndex))
    then (take (Z.to_nat dotIndex) p, drop (Z.to_nat dotIndex) p)
    else (p, [])
  else (p, []).

End Path.

(** An uploaded file: [f.filename] and the bytes behind it. *)
Record FileStorage := { filename : str; stream : list N }.

(** [os.path.splitext(filename)[0].replace(" ", "_").replace("-", "_")] *)
Definition table_name (filename : str) : str :=
  replace_char 45 (lit "_")
    (replace_char 32 (lit "_") (fst (Path.splitext filename))).

Section Upload.

(** The values held in the cells of a frame or of a table. *)
Context {Cell : Type}.

(** A pandas frame: row labels, column labels, rows. *)
Record DataFrame := {
  df_index : list Cell;
  df_columns : list str;
  df_rows : list (list Cell)
}.

Record Table := { t_columns : list str; t_rows : list (list Cell) }.

(** pandas and the engine behind [to_sql]. *)
Record Pandas := {
  read_csv : list N -> outcome DataFrame;
  read_excel : list N -> outcome DataFrame;
  (** what the engine raises when told to create and fill a table, if
      anything *)
  create_raises : str -> Table -> option exn
}.

Context (pd : Pandas).

Inductive if_exists := IfFail | IfReplace | IfAppend.

(** The table a frame is written as: with [index=True] the row labels
    become a first column named [index]. *)
Definition frame_table (df : DataFrame) (index : bool) : Table :=
  if index
  then {| t_columns := lit "index" :: df_columns df;
          t_rows := zip_with cons (df_index df) (df_rows df) |}
  else {| t_columns := df_columns df; t_rows := df_rows df |}.

(** Creating and filling the table: the database it leaves, also when the
    engine raises. *)
Definition store (name : str) (t : Table) (db : gmap str Table)
  : outcome unit * gmap str Table :=
  match create_raises pd name t with
  | Some e => (Raise e, db)
  | None => (Ret tt, <[name := t]> db)
  end.

(** [df.to_sql(name, engine, index=.., if_exists=..)].  With
    [if_exists="replace"] an existing table is dropped before the new one is
    created, so it is gone when the creation raises.  Table names are
    compared as they are written. *)
Definition to_sql (df : DataFrame) (name : str) (index : bool)
           (mode : if_exists) (db : gmap str Table)
  : outcome unit * gmap str Table :=
  let t := frame_table df index in
  match db !! name, mode with
  | Some _, IfFail =>
      (Raise (OtherException (lit "Table '" ++ name ++ lit "' already exists.")),
       db)
  | Some old, IfAppend =>
      store name {| t_columns := t_columns old;
                    t_rows := t_rows old ++ t_rows t |} db
  | Some _, IfReplace => store name t (delete name db)
  | None, _ => store name t db
  end.

(** The [if ext.lower() == ".csv" .. elif .. ".xlsx" .. else] chain:
    [None] for an unsupported extension. *)
Definition read_frame (f : FileStorage) : option (outcome DataFrame) :=
  let ext := snd (Path.splitext (filename f)) in
  if str_eqb (lower ext) (lit ".csv") then Some (read_csv pd (stream f))
  else if str_eqb (lower ext) (lit ".xlsx") then Some (read_excel pd (stream f))
  else None.

(** The loop [for f in files] and the final response. *)
Fixpoint upload_loop (files : list FileStorage) (db : gmap str Table)
  : outcome Response * gmap str Table :=
  match files with
  | [] =>
      (Ret {| resp_body := MessageBody (lit "Files uploaded successfully.");
              status := 200 |}, db)
  | f :: rest =>
      let name := table_name (filename f) in
      let ext := snd (Path.splitext (filename f)) in
      match read_frame f with
      | None =>
          (Ret {| resp_body := ErrorBody (lit "Unsupported file type " ++ ext);
                  status := 400 |}, db)
      | Some (Raise e) => (Raise e, db)
      | Some (Ret df) =>
          match to_sql df name false IfReplace db with
          | (Raise e, db') => (Raise e, db')
          | (Ret _, db') => upload_loop rest db'
          end
      end
  end.

Definition upload_files (files : list FileStorage) (db : gmap str Table)
  : outcome Response * gmap str Table :=
  match files with
  | [] =>
      (Ret {| resp_body := ErrorBody (lit "No files uploaded");
              status := 400 |}, db)
  | _ :: _ => upload_loop files db
  end.

End Upload.

Arguments DataFrame : clear implicits.
Arguments Table : clear implicits.
Arguments Pandas : clear implicits.
(** ** The extraction pattern against the words "a fenced sql block" *)

(** [f] is the opening fence in some letter case. *)
Definition fence_opens (f : str) : Prop :=
  Forall2 (fun p c => Re.literal_ignore p c = true) Re.open_fence f.

(** The response holds an opening fence and, somewhere after it, a closing
    one. *)
Definition has_sql_block (raw : str) : Prop :=
  exists pre f inner post,
    raw = pre ++ f ++ inner ++ Re.close_fence ++ post /\ fence_opens f.


(** ** The words of the specification *)

(** *** What an attempt of the loop meets *)

Section Attempts.

Context {Row : Type} (w : World (Row:=Row)).

(** An attempt that starts with trace [tr] and sends [prompt] fails
    recoverably: the response has no fenced block (extraction failure), or
    the engine rejects the extracted statement (execution error).  It
    leaves the text it tried, the error text and the new trace. *)
Inductive attempt_fails (db_file prompt : str) (tr : list event)
  : str -> str -> list event -> Prop :=
| extraction_failure raw :
    generate_content w (model_calls tr) prompt = Ret raw ->
    ~ has_sql_block raw ->
    attempt_fails db_file prompt tr
                  raw no_block_error (tr ++ [ModelCall prompt])
| execution_error raw group1 orig msg :
    generate_content w (model_calls tr) prompt = Ret raw ->
    Re.search raw = Some group1 ->
    run_query w (sql_execs tr) db_file (strip group1)
    = ExecuteRaises (StatementError orig msg) ->
    attempt_fails db_file prompt tr
                  (strip group1) (lit "SQL Error: " ++ orig)
                  (tr ++ [ModelCall prompt; SqlExec db_file (strip group1)]).

(** An attempt succeeds: the extracted statement runs and returns
    [rows]. *)
Inductive attempt_succeeds (db_file prompt : str) (tr : list event)
  : str -> list Row -> list event -> Prop :=
| execution_rows raw group1 rows :
    generate_content w (model_calls tr) prompt = Ret raw ->
    Re.search raw = Some group1 ->
    run_query w (sql_execs tr) db_file (strip group1) = Fetched rows ->
    attempt_succeeds db_file prompt tr
                     (strip group1) rows
                     (tr ++ [ModelCall prompt; SqlExec db_file (strip group1)]).

(** *** The schema description *)

Definition is_system_table (name : str) : bool :=
  startswith name (lit "sqlite_").

(** The tables of a database file with their columns, in the order of
    [sqlite_master]. *)
Definition user_tables (catalog : list (str * list colinfo))
  : list (str * list colinfo) :=
  List.filter (fun t => negb (is_system_table (fst t))) catalog.

(** A column name between double quotes, on a line of its own. *)
Definition quoted_column (name : str) : str :=
  lit "- " ++ dq ++ name ++ dq ++ nl.

(** One table: its name between backticks, then each column name between
    double quotes, then an empty line. *)
Definition describe_table (t : str * list colinfo) : str :=
  lit "Table: " ++ bt ++ fst t ++ bt ++ nl ++ lit "Columns:" ++ nl
  ++ concat (List.map (fun col => quoted_column (col_name col)) (snd t))
  ++ nl.

Definition describe (catalog : list (str * list colinfo)) : str :=
  concat (List.map describe_table (user_tables catalog)).


End Attempts.

(** A substring. *)
Definition occurs_in (x s : str) : Prop := exists a b, s = a ++ x ++ b.

(** A prompt shows the failed text and its error under their labels. *)
Definition embeds_failure (prompt sql_query result_str : str) : Prop :=
  exists a b,
    prompt = a ++ lit "Failed Response/Query: " ++ sql_query ++ nl
               ++ lit "Error Message: " ++ result_str ++ b.

(** A prompt shows a result text under its label. *)
Definition embeds_result (prompt result_str : str) : Prop :=
  exists a b, prompt = a ++ lit "SQL Result: " ++ result_str ++ nl ++ b.

(** [os.path.basename]: what follows the last slash. *)
Definition basename (p : str) : str :=
  drop (Z.to_nat (Path.rfind 47 p + 1)) p.

(** Spaces and hyphens turned into underscores. *)
Definition normalized (s : str) : str :=
  List.map (fun c => if (c =? 32) || (c =? 45) then 95 else c) s.

(** The cells of the first line of a sheet written with commas and without
    quoting. *)
Fixpoint split_on (sep : N) (s : str) : list str :=
  match s with
  | [] => [[]]
  | c :: s' =>
      if c =? sep then [] :: split_on sep s'
      else match split_on sep s' with
           | cell :: cells => (c :: cell) :: cells
           | [] => [[c]]
           end
  end.

Fixpoint first_line (s : str) : str :=
  match s with
  | [] => []
  | c :: s' => if c =? 10 then [] else c :: first_line s'
  end.

Definition header_row (sheet : str) : list str := split_on 44 (first_line sheet).

(** The exceptions that [except SQLAlchemyError] catches. *)
Definition is_sqlalchemy_error (e : exn) : bool :=
  match e with
  | StatementError _ _ | SQLAlchemyError _ _ => true
  | AttributeError _ | OtherException _ => false
  end.

(** The answer of [/upload] when every file was stored. *)
Definition uploaded : Response :=
  {| resp_body := MessageBody (lit "Files uploaded successfully.");
     status := 200 |}.

(** The two answers of [/ask] after the loop. *)
Definition failure_response (result_str : str) : Response :=
  {| resp_body :=
       AnswerBody (lit "I tried to answer, but the process failed with an error: "
                   ++ result_str);
     status := 200 |}.

Definition answer_response (answer : str) : Response :=
  {| resp_body := AnswerBody answer; status := 200 |}.

(** ** Sample worlds

    Concrete worlds on which the statements below are run.  A sample row is
    kept as the text Python prints for it. *)
Module Sample.

Definition repr_row (r : str) : str := r.

Definition question_text : jval := JStr (lit "How many wells are there?").

Definition wells_columns : list colinfo :=
  [ColInfo 0 (lit "Well ID") (lit "INTEGER") 0 None 0;
   ColInfo 1 (lit "Recharge from Rainfall-MON") (lit "REAL") 0 None 0].

(** A world whose model answers the n-th call with the n-th text of
    [responses], whose engine answers the n-th statement with the n-th
    entry of [results], and whose files hold the tables [tables], each
    with the columns [wells_columns]. *)
Definition world (responses : list str) (results : list (exec_outcome str))
           (tables : list str) : World (Row:=str) :=
  {| path_exists := fun _ => true;
     generate_content := fun n _ =>
       match responses !! n with
       | Some r => Ret r
       | None => Raise (OtherException (lit "model unavailable"))
       end;
     sqlite_master := fun _ => Ret tables;
     table_info := fun _ _ => Ret wells_columns;
     run_query := fun n _ _ =>
       match results !! n with
       | Some o => o
       | None => ConnectRaises (OtherException (lit "engine unavailable"))
       end |}.

Definition tables : list str := [lit "sqlite_sequence"; lit "wells"].

Definition schema : str := describe [(lit "wells", wells_columns)].

Definition fenced_count : str :=
  lit "```sql" ++ nl ++ lit "SELECT COUNT(*) FROM wells;" ++ nl ++ lit "```".

Definition fenced_bad_column : str :=
  lit "Sure: ```SQL SELECT depth FROM wells ``` ".

Definition no_such_column : exn :=
  StatementError (lit "no such column: depth")
                 (lit "(sqlite3.OperationalError) no such column: depth").

(** Attempt 0 has no fenced block, attempt 1 returns one row. *)
Definition second_try : World :=
  world [lit "I would count the rows of wells."; fenced_count;
         lit "There are 3 wells."]
        [Fetched [lit "(3,)"]] tables.

(** Attempt 0 is rejected by the engine, attempt 1 has no fenced block. *)
Definition both_fail : World :=
  world [fenced_bad_column; lit "SELECT COUNT(*) FROM wells"]
        [ExecuteRaises no_such_column] tables.

(** Neither attempt has a fenced block. *)
Definition never_fenced : World :=
  world [lit "SELECT COUNT(*) FROM wells"; lit "``` SELECT 1 ```"] [] tables.

(** The first statement returns no row. *)
Definition zero_rows : World :=
  world [fenced_count; lit "No well matches."] [Fetched []] tables.

(** A file that holds only the engine's own tables. *)
Definition no_user_table : World :=
  world [lit "unused"] [] [lit "sqlite_sequence"; lit "sqlite_stat1"].

(** The file cannot be opened when [execute_sql] connects. *)
Definition cannot_connect : World :=
  world []
        [ConnectRaises
           (StatementError (lit "unable to open database file")
              (lit "(sqlite3.OperationalError) unable to open database file"))]
        tables.

(** The statement returns no rows, so [fetchall] raises an error that has
    no [.orig]. *)
Definition not_a_query : World :=
  world []
        [ExecuteRaises
           (SQLAlchemyError (lit "ResourceClosedError")
              (lit "This result object does not return rows. It has been closed automatically."))]
        tables.

(** An uploaded sheet and what pandas reads from it. *)
Definition rainfall_frame : DataFrame str :=
  {| df_index := [lit "0"];
     df_columns := [lit "State"; lit "Recharge from Rainfall-MON"];
     df_rows := [[lit "Goa"; lit "12.5"]] |}.

Definition rainfall_file : FileStorage :=
  {| filename := lit "Rainfall Data-2023.csv";
     stream := lit "State,Recharge from Rainfall-MON" ++ nl ++ lit "Goa,12.5" ++ nl |}.

Definition pandas : Pandas str :=
  {| read_csv := fun _ => Ret rainfall_frame;
     read_excel := fun _ => Raise (OtherException (lit "not a workbook"));
     create_raises := fun _ _ => None |}.

(** A table of that name left by an earlier upload. *)
Definition old_tables : gmap str (Table str) :=
  {[ lit "Rainfall_Data_2023" :=
       {| t_columns := [lit "index"; lit "District"]; t_rows := [] |} ]}.

End Sample.

(** ** The conversion script (src/helper_convert_to_db.py) *)

(** [posixpath.join(a, b)] *)
Definition path_join (a b : str) : str :=
  if startswith b (lit "/") then b
  else
    match a with
    | [] => a ++ b
    | _ :: _ =>
        if startswith (rev a) (lit "/") then a ++ b else a ++ lit "/" ++ b
    end.

Definition CSV_XLSX_DIR : str := lit "data/csv_xlsx".

(** The script stores into the database that [/ask] calls the stored one. *)
Definition SCRIPT_DB : str := lit "data/sqldb.db".

Section Convert.

Context {Cell : Type}.

(** The directory listing and pandas reading from a path. *)
Record Disk := {
  listdir : str -> outcome (list str);
  read_csv_at : str -> outcome (DataFrame Cell);
  read_excel_at : str -> outcome (DataFrame Cell)
}.

Context (pd : Pandas Cell) (disk : Disk).

(** The [if .. elif .. else] chain of the script: [None] for a file that is
    skipped. *)
Definition read_frame_at (filename : str) : option (outcome (DataFrame Cell)) :=
  let file_path := path_join CSV_XLSX_DIR filename in
  let ext := snd (Path.splitext filename) in
  if str_eqb (lower ext) (lit ".csv") then Some (read_csv_at disk file_path)
  else if str_eqb (lower ext) (lit ".xlsx") then Some (read_excel_at disk file_path)
  else None.

(** The line printed after a file is stored; it starts with U+2705 and holds
    U+2192. *)
Definition stored_line (filename name : str) : str :=
  [9989] ++ lit " " ++ filename ++ lit " " ++ [8594] ++ lit " table '" ++ name
  ++ lit "' in " ++ SCRIPT_DB.

(** The loop [for filename in os.listdir(..)]; [out] collects what [print]
    is given, one entry per call. *)
Fixpoint convert_loop (filenames : list str) (db : gmap str (Table Cell))
         (out : list str)
  : outcome unit * gmap str (Table Cell) * list str :=
  match filenames with
  | [] => (Ret tt, db, out)
  | filename :: rest =>
      let name := fst (Path.splitext filename) in
      match read_frame_at filename with
      | None =>
          convert_loop rest db
                       (out ++ [lit "Skipping unsupported file: " ++ filename])
      | Some (Raise e) => (Raise e, db, out)
      | Some (Ret df) =>
          match to_sql pd df name false IfReplace db with
          | (Raise e, db') => (Raise e, db', out)
          | (Ret _, db') =>
              convert_loop rest db' (out ++ [stored_line filename name])
          end
      end
  end.

Definition convert_script (db : gmap str (Table Cell))
  : outcome unit * gmap str (Table Cell) * list str :=
  match listdir disk CSV_XLSX_DIR with
  | Raise e => (Raise e, db, [])
  | Ret filenames =>
      match convert_loop filenames db [] with
      | (Ret _, db', out) =>
          (Ret tt, db', out ++ [nl ++ lit "All files processed successfully!"])
      | failed => failed
      end
  end.

End Convert.

Arguments Disk : clear implicits.

(** ** Shapes used by the statements on the whole handlers *)

(** The answers [/ask] gives: an answer with 200, or an error with 400 or
    500. *)
Definition ask_response_shape (resp : Response) : Prop :=
  match resp_body resp with
  | AnswerBody _ => status resp = 200
  | ErrorBody _ => status resp = 400 \/ status resp = 500
  | MessageBody _ => False
  end.

(** An event that runs no statement on a file other than [db_file]. *)
Definition on_db (db_file : str) (e : event) : Prop :=
  match e with
  | SqlExec d _ => d = db_file
  | ModelCall _ => True
  end.

Definition unexpected_response (e : exn) : Response :=
  {| resp_body := ErrorBody (lit "An unexpected error occurred: " ++ exn_str e);
     status := 500 |}.

(** A name without a space or a hyphen. *)
Definition plain_name (s : str) : bool :=
  forallb (fun c => negb ((c =? 32) || (c =? 45))) s.

(** The upload route can read and store the file. *)
Definition stores {Cell : Type} (pd : Pandas Cell) (f : FileStorage) : Prop :=
  exists df,
    read_frame pd f = Some (Ret df)
    /\ create_raises pd (table_name (filename f))
         {| t_columns := df_columns df; t_rows := df_rows df |} = None.


(** The last step of the pattern: the closing fence, keeping group [g]. *)
Local Abbreviation close_k g :=
  (fun s4 : str =>
     match Re.literals Re.close_fence s4 with
     | Some _ => Some g
     | None => None
     end).

(** A text without a backtick. *)
Definition no_backtick (s : str) : bool :=
  forallb (fun c => negb (c =? 96)) s.

(** No white space at either end. *)
Definition trimmed (s : str) : Prop :=
  match s with [] => True | c :: _ => isspace c = false end
  /\ match rev s with [] => True | c :: _ => isspace c = false end.

Module Sample2.

(** The model is unreachable. *)
Definition model_down : World :=
  Sample.world [] [] Sample.tables.

(** The first statement returns no rows, so the executor raises. *)
Definition create_statement : World :=
  Sample.world [lit "```sql CREATE TABLE t (x INTEGER) ```"; Sample.fenced_count]
    [ExecuteRaises
       (SQLAlchemyError (lit "ResourceClosedError")
          (lit "This result object does not return rows. It has been closed automatically."))]
    Sample.tables.

(** The file is not a database. *)
Definition not_a_database : World :=
  {| path_exists := fun _ => true;
     generate_content := fun _ _ => Ret (lit "unused");
     sqlite_master := fun _ =>
       Raise (StatementError (lit "file is not a database")
                (lit "(sqlite3.DatabaseError) file is not a database"));
     table_info := fun _ _ => Ret [];
     run_query := fun _ _ _ => Fetched ([] : list str) |}.


(** A sheet whose header repeats a label and leaves one empty, and the
    labels pandas gives its columns. *)
Definition repeated_header_file : FileStorage :=
  {| filename := lit "levels.csv";
     stream := lit "a,a," ++ nl ++ lit "1,2,3" ++ nl |}.

Definition repeated_header_frame : DataFrame str :=
  {| df_index := [lit "0"];
     df_columns := [lit "a"; lit "a.1"; lit "Unnamed: 2"];
     df_rows := [[lit "1"; lit "2"; lit "3"]] |}.

Definition pandas_renaming : Pandas str :=
  {| read_csv := fun _ => Ret repeated_header_frame;
     read_excel := fun _ => Raise (OtherException (lit "not a workbook"));
     create_raises := fun _ _ => None |}.

(** A file name sent with a directory part. *)
Definition nested_file : FileStorage :=
  {| filename := lit "in/dir 1/na-me.csv";
     stream := lit "State" ++ nl ++ lit "Goa" ++ nl |}.

Definition notes_file : FileStorage :=
  {| filename := lit "notes.txt"; stream := lit "remember the wells" |}.

Definition disk : Disk str :=
  {| listdir := fun _ => Ret [lit "Rainfall Data-2023.csv"; lit "README.md"];
     read_csv_at := fun _ => Ret Sample.rainfall_frame;
     read_excel_at := fun _ => Raise (OtherException (lit "not a workbook")) |}.

End Sample2.

(** * Facts *)

Example search_plain :
  Re.search (lit "Here: ```SQL  SELECT 1;  ``` done") = Some (lit "SELECT 1;").
Proof. vm_compute. reflexivity. Qed.

Example search_none : Re.search (lit "SELECT 1;") = None.
Proof. vm_compute. reflexivity. Qed.

Example search_unclosed : Re.search (lit "```sql SELECT 1;") = None.
Proof. vm_compute. reflexivity. Qed.

(** The group is lazy: it ends at the first closing fence. *)
Example search_first_close :
  Re.search (lit "```sql SELECT 1 ``` and ```sql SELECT 2 ```")
  = Some (lit "SELECT 1").
Proof. vm_compute. reflexivity. Qed.

(** The long s (U+017F) opens a fence under [re.IGNORECASE]. *)
Example search_long_s :
  Re.search (lit "```" ++ [383] ++ lit "QL x```") = Some (lit "x").
Proof. vm_compute. reflexivity. Qed.

(** ** Strings: basic facts *)

Lemma startswith_app (p s : str) : startswith (p ++ s) p = true.
Proof.
  induction p as [|a p IH]; simpl; [reflexivity|].
  rewrite N.eqb_refl. exact IH.
Qed.

Lemma startswith_prefix (s p : str) :
  startswith s p = true <-> exists t, s = p ++ t.
Proof.
  split.
  - revert s. induction p as [|a p IH]; intros s H.
    + exists s. reflexivity.
    + destruct s as [|b s]; simpl in H; [discriminate|].
      apply andb_prop in H as [Hab Hs]. apply N.eqb_eq in Hab. subst b.
      destruct (IH _ Hs) as [t ->]. exists t. reflexivity.
  - intros [t ->]. apply startswith_app.
Qed.

Lemma str_eqb_eq (a b : str) : str_eqb a b = true <-> a = b.
Proof.
  revert b. induction a as [|x a IH]; intros [|y b]; simpl; split;
    try congruence; try reflexivity.
  - intros H. apply andb_prop in H as [Hx Ha].
    apply N.eqb_eq in Hx. apply IH in Ha. congruence.
  - intros [= -> ->]. rewrite N.eqb_refl. apply IH. reflexivity.
Qed.

(** ** The extraction pattern: when it matches *)

Lemma literals_Some (p s r : str) :
  Re.literals p s = Some r <->
  exists f, s = f ++ r /\ Forall2 (fun a c => Re.literal_ignore a c = true) p f.
Proof.
  revert s. induction p as [|a p IH]; intros s; simpl.
  - split.
    + intros [= ->]. exists []. split; [reflexivity | constructor].
    + intros (f & -> & Hf). inversion Hf. reflexivity.
  - destruct s as [|c s].
    + split; [discriminate|]. intros (f & Hs & Hf).
      inversion Hf; subst. discriminate.
    + destruct (Re.literal_ignore a c) eqn:Hac.
      * rewrite IH. split.
        -- intros (f & -> & Hf). exists (c :: f). split; [reflexivity|].
           constructor; assumption.
        -- intros (f & Hs & Hf). inversion Hf as [|? c' ? f' Hc Hf']; subst.
           injection Hs as -> ->. exists f'. split; [reflexivity | assumption].
      * split; [discriminate|]. intros (f & Hs & Hf).
        inversion Hf as [|? c' ? f' Hc Hf']; subst.
        injection Hs as -> ->. congruence.
Qed.

Lemma backtick_only (c : N) : Re.literal_ignore 96 c = true -> c = 96.
Proof.
  unfold Re.literal_ignore, lower_char. rewrite orb_false_r.
  destruct ((65 <=? c) && (c <=? 90)) eqn:Hup; intros H; apply N.eqb_eq in H.
  - apply andb_prop in Hup as [H1 H2]. apply N.leb_le in H1. lia.
  - exact H.
Qed.

Lemma close_fence_exact (f : str) :
  Forall2 (fun a c => Re.literal_ignore a c = true) Re.close_fence f ->
  f = Re.close_fence.
Proof.
  assert (E : Re.close_fence = [96; 96; 96]) by reflexivity.
  rewrite E. intros H.
  repeat match goal with
         | H : Forall2 _ _ _ |- _ => inversion H; clear H; subst
         end.
  repeat match goal with
         | H : Re.literal_ignore 96 _ = true |- _ => apply backtick_only in H; subst
         end.
  reflexivity.
Qed.

Lemma close_fence_matches :
  Forall2 (fun a c => Re.literal_ignore a c = true) Re.close_fence Re.close_fence.
Proof. repeat constructor. Qed.

Lemma space_star_of_k {A} (k : str -> option A) (s : str) :
  is_Some (k s) -> is_Some (Re.space_star k s).
Proof.
  intros H. destruct s as [|c s]; simpl; [exact H|].
  destruct (isspace c); [|exact H].
  destruct (Re.space_star k s); [eexists; reflexivity | exact H].
Qed.

Lemma space_star_Some {A} (k : str -> option A) (s : str) :
  is_Some (Re.space_star k s) <->
  exists ws s', s = ws ++ s' /\ forallb isspace ws = true /\ is_Some (k s').
Proof.
  split.
  - induction s as [|c s IH]; simpl.
    + intros H. exists [], []. auto.
    + destruct (isspace c) eqn:Hc.
      * destruct (Re.space_star k s) eqn:Hs.
        -- intros _. destruct IH as (ws & s' & -> & Hws & Hk); [eexists; reflexivity|].
           exists (c :: ws), s'. simpl. rewrite Hc, Hws. auto.
        -- intros H. exists [], (c :: s). auto.
      * intros H. exists [], (c :: s). auto.
  - intros (ws & s' & -> & Hws & Hk). induction ws as [|c ws IH]; simpl.
    + apply space_star_of_k, Hk.
    + simpl in Hws. apply andb_prop in Hws as [Hc Hws]. rewrite Hc.
      destruct (IH Hws) as [r ->]. eexists; reflexivity.
Qed.

Lemma any_lazy_Some {A} (k : str -> str -> option A) (acc s : str) :
  is_Some (Re.any_lazy k acc s) <->
  exists g s', s = g ++ s' /\ is_Some (k (acc ++ g) s').
Proof.
  split.
  - revert acc. induction s as [|c s IH]; intros acc; simpl.
    + destruct (k acc []) eqn:Hk.
      * intros _. exists [], []. split; [reflexivity|].
        rewrite app_nil_r, Hk. eexists; reflexivity.
      * intros [? [=]].
    + destruct (k acc (c :: s)) eqn:Hk.
      * intros _. exists [], (c :: s). split; [reflexivity|].
        rewrite app_nil_r, Hk. eexists; reflexivity.
      * intros H. destruct (IH _ H) as (g & s' & -> & Hg).
        exists (c :: g), s'. rewrite <- app_assoc in Hg. auto.
  - intros (g & s' & -> & Hk). revert acc Hk.
    induction g as [|c g IH]; intros acc Hk.
    + rewrite app_nil_r in Hk. destruct Hk as [r Hr].
      destruct s'; simpl; rewrite Hr; eexists; reflexivity.
    + simpl. destruct (k acc (c :: g ++ s')); [eexists; reflexivity|].
      apply IH. rewrite <- app_assoc. exact Hk.
Qed.

Lemma match_here_Some (s : str) :
  is_Some (Re.match_here s) <->
  exists f inner post, s = f ++ inner ++ Re.close_fence ++ post /\ fence_opens f.
Proof.
  unfold Re.match_here. split.
  - destruct (Re.literals Re.open_fence s) as [s1|] eqn:Hopen;
      [|intros [? [=]]].
    apply literals_Some in Hopen as (f & -> & Hf).
    intros H. apply space_star_Some in H as (ws1 & s2 & -> & _ & H).
    apply any_lazy_Some in H as (g & s3 & -> & H).
    apply space_star_Some in H as (ws2 & s4 & -> & _ & H).
    cbv beta in H.
    destruct (Re.literals Re.close_fence s4) as [post|] eqn:Hclose;
      [|destruct H as [? H]; discriminate H].
    apply literals_Some in Hclose as (c & -> & Hc).
    apply close_fence_exact in Hc. subst c.
    exists f, (ws1 ++ g ++ ws2), post. split; [|exact Hf].
    rewrite <- !app_assoc. reflexivity.
  - intros (f & inner & post & -> & Hf).
    assert (Hopen : Re.literals Re.open_fence
                      (f ++ inner ++ Re.close_fence ++ post)
                    = Some (inner ++ Re.close_fence ++ post)).
    { apply literals_Some. exists f. auto. }
    rewrite Hopen.
    apply space_star_of_k. apply any_lazy_Some.
    exists inner, (Re.close_fence ++ post). split; [reflexivity|].
    apply space_star_of_k.
    assert (Hclose : Re.literals Re.close_fence (Re.close_fence ++ post)
                     = Some post).
    { apply literals_Some. exists Re.close_fence.
      split; [reflexivity | apply close_fence_matches]. }
    rewrite Hclose. eexists; reflexivity.
Qed.

Lemma search_unfold (s : str) :
  Re.search s =
  match Re.match_here s with
  | Some g => Some g
  | None => match s with [] => None | _ :: s' => Re.search s' end
  end.
Proof. destruct s; reflexivity. Qed.

(** [re.search] finds a match exactly when the response has a fenced block. *)
Lemma search_Some_iff (raw : str) :
  is_Some (Re.search raw) <-> has_sql_block raw.
Proof.
  unfold has_sql_block. split.
  - induction raw as [|c raw IH]; rewrite search_unfold;
      (destruct (Re.match_here _) eqn:Hm;
       [ intros _;
         assert (H : is_Some (Re.match_here _)) by (rewrite Hm; eexists; reflexivity);
         apply match_here_Some in H as (f & inner & post & Hs & Hf);
         exists [], f, inner, post; auto | ]).
    + intros [? [=]].
    + intros H. destruct (IH H) as (pre & f & inner & post & -> & Hf).
      exists (c :: pre), f, inner, post. auto.
  - intros (pre & f & inner & post & -> & Hf).
    assert (Hm : is_Some (Re.match_here (f ++ inner ++ Re.close_fence ++ post))).
    { apply match_here_Some. exists f, inner, post. auto. }
    induction pre as [|c pre IH].
    + rewrite app_nil_l, search_unfold.
      destruct Hm as [g ->]. eexists; reflexivity.
    + rewrite <- app_comm_cons, search_unfold.
      destruct (Re.match_here (c :: _)); [eexists; reflexivity | exact IH].
Qed.

Lemma search_None_iff (raw : str) :
  Re.search raw = None <-> ~ has_sql_block raw.
Proof.
  rewrite <- search_Some_iff. split.
  - intros -> [? [=]].
  - intros H. destruct (Re.search raw); [|reflexivity].
    exfalso. apply H. eexists; reflexivity.
Qed.

(** ** The trace *)

Lemma model_calls_app (tr tr' : list event) :
  model_calls (tr ++ tr') = (model_calls tr + model_calls tr')%nat.
Proof. unfold model_calls. rewrite List.filter_app, length_app. reflexivity. Qed.

Lemma sql_execs_app (tr tr' : list event) :
  sql_execs (tr ++ tr') = (sql_execs tr + sql_execs tr')%nat.
Proof. unfold sql_execs. rewrite List.filter_app, length_app. reflexivity. Qed.

Lemma sql_execs_model_call (tr : list event) (p : str) :
  sql_execs (tr ++ [ModelCall p]) = sql_execs tr.
Proof.
  rewrite sql_execs_app. change (sql_execs [ModelCall p]) with 0%nat.
  apply Nat.add_0_r.
Qed.

(** ** The steps of the loop *)

Section Steps.

Context {Row : Type} (repr_row : Row -> str) (w : World (Row:=Row)).

Lemma rows_not_error (rows : list Row) :
  startswith (py_str repr_row (ResultRows rows)) (lit "SQL Error:") = false.
Proof. reflexivity. Qed.

Lemma attempt_fails_error db_file prompt tr q e tr' :
  attempt_fails w db_file prompt tr q e tr' ->
  startswith e (lit "SQL Error:") = true.
Proof. intros [raw Hg Hb | raw g orig msg Hg Hs Hr]; reflexivity. Qed.

Lemma attempt_body_no_block db_file db_schema question attempt q r tr raw :
  generate_content w (model_calls tr)
                   (attempt_prompt db_schema question attempt q r) = Ret raw ->
  ~ has_sql_block raw ->
  attempt_body repr_row w db_file db_schema question attempt q r tr
  = (Ret (raw, no_block_error),
     tr ++ [ModelCall (attempt_prompt db_schema question attempt q r)]).
Proof.
  intros Hg Hb. apply search_None_iff in Hb.
  unfold attempt_body, bind, ask_gemini. rewrite Hg, Hb. reflexivity.
Qed.

Lemma attempt_body_fails db_file db_schema question attempt q r tr q' e' tr' :
  attempt_fails w db_file (attempt_prompt db_schema question attempt q r)
                tr q' e' tr' ->
  attempt_body repr_row w db_file db_schema question attempt q r tr
  = (Ret (q', e'), tr').
Proof.
  intros [raw Hg Hb | raw g orig msg Hg Hs Hr].
  - apply attempt_body_no_block; assumption.
  - unfold attempt_body, bind, ask_gemini, execute_sql.
    rewrite Hg, Hs, sql_execs_model_call, Hr, <- app_assoc. reflexivity.
Qed.

Lemma attempt_body_succeeds db_file db_schema question attempt q r tr
      q' rows tr' :
  attempt_succeeds w db_file (attempt_prompt db_schema question attempt q r)
                   tr q' rows tr' ->
  attempt_body repr_row w db_file db_schema question attempt q r tr
  = (Ret (q', py_str repr_row (ResultRows rows)), tr').
Proof.
  intros [raw g rows' Hg Hs Hr].
  unfold attempt_body, bind, ask_gemini, execute_sql.
  rewrite Hg, Hs, sql_execs_model_call, Hr, <- app_assoc. reflexivity.
Qed.

Lemma retry_loop_unfold db_file db_schema question n attempt q r tr :
  retry_loop repr_row w db_file db_schema question (S n) attempt q r tr
  = match attempt_body repr_row w db_file db_schema question attempt q r tr with
    | (Ret vars, tr') =>
        if negb (startswith (snd vars) (lit "SQL Error:"))
        then (Ret vars, tr')
        else retry_loop repr_row w db_file db_schema question n (S attempt)
                        (fst vars) (snd vars) tr'
    | (Raise e, tr') => (Raise e, tr')
    end.
Proof.
  cbn [retry_loop]. unfold bind at 1.
  destruct (attempt_body _ _ _ _ _ _ _ _ _) as [[vars|e] tr']; [|reflexivity].
  destruct (negb _); reflexivity.
Qed.

(** A failed attempt with passes left is followed by the next attempt. *)
Lemma retry_loop_after_failure db_file db_schema question n attempt q r tr
      q' e' tr' :
  attempt_fails w db_file (attempt_prompt db_schema question attempt q r)
                tr q' e' tr' ->
  retry_loop repr_row w db_file db_schema question (S n) attempt q r tr
  = retry_loop repr_row w db_file db_schema question n (S attempt) q' e' tr'.
Proof.
  intros Hf. rewrite retry_loop_unfold, (attempt_body_fails _ _ _ _ _ _ _ _ _ _ Hf).
  cbn [fst snd]. rewrite (attempt_fails_error _ _ _ _ _ _ Hf). reflexivity.
Qed.

(** A successful attempt leaves the loop. *)
Lemma retry_loop_after_success db_file db_schema question n attempt q r tr
      q' rows tr' :
  attempt_succeeds w db_file (attempt_prompt db_schema question attempt q r)
                   tr q' rows tr' ->
  retry_loop repr_row w db_file db_schema question (S n) attempt q r tr
  = (Ret (q', py_str repr_row (ResultRows rows)), tr').
Proof.
  intros Hs. rewrite retry_loop_unfold, (attempt_body_succeeds _ _ _ _ _ _ _ _ _ _ Hs).
  cbn [fst snd]. rewrite rows_not_error. reflexivity.
Qed.

Lemma finish_error question result_str tr :
  startswith result_str (lit "SQL Error:") = true ->
  finish w question result_str tr = (Ret (failure_response result_str), tr).
Proof. intros H. unfold finish. rewrite H. reflexivity. Qed.

Lemma finish_answer question result_str tr answer :
  startswith result_str (lit "SQL Error:") = false ->
  generate_content w (model_calls tr) (answer_prompt question result_str)
  = Ret answer ->
  finish w question result_str tr
  = (Ret (answer_response answer),
     tr ++ [ModelCall (answer_prompt question result_str)]).
Proof.
  intros H Hg. unfold finish, bind, ask_gemini. rewrite H, Hg. reflexivity.
Qed.

(** The handler around a loop that has run to its end. *)
Lemma ask_on_after_loop question db_file db_schema vars tr resp tr' :
  path_exists w db_file = true ->
  get_db_schema w db_file [] = (Ret db_schema, []) ->
  db_schema <> [] ->
  retry_loop repr_row w db_file db_schema question max_retries 0 [] [] []
  = (Ret vars, tr) ->
  finish w question (snd vars) tr = (Ret resp, tr') ->
  ask_on repr_row w question db_file [] = (Ret resp, tr').
Proof.
  intros He Hs Hne Hl Hf. unfold ask_on. rewrite He. cbn [negb].
  unfold try_except, bind at 1. rewrite Hs.
  destruct db_schema as [|c db_schema]; [congruence|].
  unfold bind. rewrite Hl, Hf. reflexivity.
Qed.

End Steps.

(** ** The retry loop *)

Section Loop.

Context {Row : Type} (repr_row : Row -> str) (w : World (Row:=Row)).

(** Every pass sends one prompt and runs at most one statement. *)
Lemma attempt_body_trace db_file db_schema question attempt q r tr :
  exists rest,
    snd (attempt_body repr_row w db_file db_schema question attempt q r tr)
    = tr ++ ModelCall (attempt_prompt db_schema question attempt q r) :: rest
    /\ model_calls rest = 0%nat /\ (sql_execs rest <= 1)%nat.
Proof.
  unfold attempt_body, bind, ask_gemini.
  destruct (generate_content w _ _) as [raw|e].
  - destruct (Re.search raw) as [g|].
    + unfold execute_sql.
      exists [SqlExec db_file (strip g)].
      rewrite <- app_assoc. split; [|split; [reflexivity | apply Nat.le_refl]].
      destruct (run_query w _ _ _) as [e|rows|[]]; reflexivity.
    + exists []. split; [reflexivity | split; [reflexivity | apply Nat.le_0_l]].
  - exists []. split; [reflexivity | split; [reflexivity | apply Nat.le_0_l]].
Qed.

(** The loop makes at most [remaining] attempts. *)
Lemma retry_loop_bound db_file db_schema question n attempt q r tr :
  (model_calls
     (snd (retry_loop repr_row w db_file db_schema question n attempt q r tr))
   <= model_calls tr + n)%nat.
Proof.
  revert attempt q r tr. induction n as [|n IH]; intros attempt q r tr.
  - cbn [retry_loop ret snd]. lia.
  - rewrite retry_loop_unfold.
    destruct (attempt_body_trace db_file db_schema question attempt q r tr)
      as (rest & Htr & Hm & _).
    destruct (attempt_body _ _ _ _ _ _ _ _ _) as [[vars|e] tr'];
      cbn [snd] in Htr; subst tr'.
    + assert (Hc : model_calls
                     (tr ++ ModelCall (attempt_prompt db_schema question attempt q r)
                         :: rest) = S (model_calls tr)).
      { rewrite model_calls_app.
        change (ModelCall ?p :: rest) with ([ModelCall p] ++ rest).
        rewrite model_calls_app, Hm. cbn. lia. }
      destruct (negb _).
      * cbn [snd]. rewrite Hc. lia.
      * specialize (IH (S attempt) (fst vars) (snd vars)
                       (tr ++ ModelCall (attempt_prompt db_schema question attempt q r)
                           :: rest)).
        rewrite Hc in IH. lia.
    + cbn [snd]. rewrite model_calls_app.
      change (ModelCall ?p :: rest) with ([ModelCall p] ++ rest).
      rewrite model_calls_app, Hm. cbn. lia.
Qed.

Lemma loop_second_succeeds question db_file db_schema q0 e0 tr1 q1 rows tr2 :
  attempt_fails w db_file (first_prompt db_schema question) [] q0 e0 tr1 ->
  attempt_succeeds w db_file (retry_prompt db_schema question q0 e0)
                   tr1 q1 rows tr2 ->
  retry_loop repr_row w db_file db_schema question max_retries 0 [] [] []
  = (Ret (q1, py_str repr_row (ResultRows rows)), tr2).
Proof.
  intros H0 H1. unfold max_retries.
  rewrite (retry_loop_after_failure repr_row w db_file db_schema question
             1 0 [] [] [] q0 e0 tr1 H0).
  apply (retry_loop_after_success repr_row w db_file db_schema question
           0 1 q0 e0 tr1 q1 rows tr2 H1).
Qed.

Lemma loop_both_fail question db_file db_schema q0 e0 tr1 q1 e1 tr2 :
  attempt_fails w db_file (first_prompt db_schema question) [] q0 e0 tr1 ->
  attempt_fails w db_file (retry_prompt db_schema question q0 e0)
                tr1 q1 e1 tr2 ->
  retry_loop repr_row w db_file db_schema question max_retries 0 [] [] []
  = (Ret (q1, e1), tr2).
Proof.
  intros H0 H1. unfold max_retries.
  rewrite (retry_loop_after_failure repr_row w db_file db_schema question
             1 0 [] [] [] q0 e0 tr1 H0).
  rewrite (retry_loop_after_failure repr_row w db_file db_schema question
             0 1 q0 e0 tr1 q1 e1 tr2 H1).
  reflexivity.
Qed.

Lemma ask_on_both_fail question db_file db_schema q0 e0 tr1 q1 e1 tr2 :
  path_exists w db_file = true ->
  get_db_schema w db_file [] = (Ret db_schema, []) ->
  db_schema <> [] ->
  attempt_fails w db_file (first_prompt db_schema question) [] q0 e0 tr1 ->
  attempt_fails w db_file (retry_prompt db_schema question q0 e0)
                tr1 q1 e1 tr2 ->
  ask_on repr_row w question db_file [] = (Ret (failure_response e1), tr2).
Proof.
  intros He Hs Hne H0 H1.
  apply (ask_on_after_loop repr_row w question db_file db_schema _ _ _ _
           He Hs Hne (loop_both_fail _ _ _ _ _ _ _ _ _ H0 H1)).
  cbn [snd]. apply finish_error.
  apply (attempt_fails_error w _ _ _ _ _ _ H1).
Qed.

(** C1. The loop makes at most two attempts.  When attempt 0 fails
    (extraction failure or execution error) and attempt 1 succeeds, the
    handler answers with the paraphrase of the rows of attempt 1; when both
    fail it answers with the failure message built from the error of
    attempt 1, and the model is not called again. *)
Theorem two_attempts question db_file db_schema q0 e0 tr1 :
  path_exists w db_file = true ->
  get_db_schema w db_file [] = (Ret db_schema, []) ->
  db_schema <> [] ->
  attempt_fails w db_file (first_prompt db_schema question) [] q0 e0 tr1 ->
  (model_calls
     (snd (retry_loop repr_row w db_file db_schema question max_retries 0
                      [] [] [])) <= 2)%nat
  /\ (forall q1 rows tr2 answer,
         attempt_succeeds w db_file (retry_prompt db_schema question q0 e0)
                          tr1 q1 rows tr2 ->
         generate_content w (model_calls tr2)
           (answer_prompt question (py_str repr_row (ResultRows rows)))
         = Ret answer ->
         retry_loop repr_row w db_file db_schema question max_retries 0
                    [] [] []
         = (Ret (q1, py_str repr_row (ResultRows rows)), tr2)
         /\ ask_on repr_row w question db_file []
            = (Ret (answer_response answer),
               tr2 ++ [ModelCall
                         (answer_prompt question
                            (py_str repr_row (ResultRows rows)))]))
  /\ (forall q1 e1 tr2,
         attempt_fails w db_file (retry_prompt db_schema question q0 e0)
                       tr1 q1 e1 tr2 ->
         ask_on repr_row w question db_file []
         = (Ret (failure_response e1), tr2)
         /\ model_calls tr2 = 2%nat).
Proof.
  intros He Hs Hne H0. split; [|split].
  - apply (retry_loop_bound db_file db_schema question max_retries 0 [] [] []).
  - intros q1 rows tr2 answer H1 Hg.
    pose proof (loop_second_succeeds _ _ _ _ _ _ _ _ _ H0 H1) as Hl.
    split; [exact Hl|].
    apply (ask_on_after_loop repr_row w question db_file db_schema _ _ _ _
             He Hs Hne Hl).
    cbn [snd]. apply finish_answer; [apply rows_not_error | exact Hg].
  - intros q1 e1 tr2 H1. split.
    + apply (ask_on_both_fail _ _ _ _ _ _ _ _ _ He Hs Hne H0 H1).
    + inversion H0; subst; inversion H1; subst; reflexivity.
Qed.

End Loop.

Lemma two_attempts_witness :
  fst (ask_on Sample.repr_row Sample.second_try Sample.question_text
              STORED_DB [])
  = Ret (answer_response (lit "There are 3 wells."))
  /\ fst (ask_on Sample.repr_row Sample.both_fail Sample.question_text
                 STORED_DB [])
     = Ret (failure_response no_block_error).
Proof.
  split.
  - edestruct (two_attempts Sample.repr_row Sample.second_try
                 Sample.question_text STORED_DB Sample.schema)
      as (_ & Hok & _).
    + reflexivity.
    + vm_compute. reflexivity.
    + discriminate.
    + apply (extraction_failure _ _ _ _ (lit "I would count the rows of wells.")).
      * reflexivity.
      * apply search_None_iff. vm_compute. reflexivity.
    + edestruct Hok as [_ ->].
      * eapply (execution_rows _ _ _ _ Sample.fenced_count).
        -- reflexivity.
        -- vm_compute. reflexivity.
        -- reflexivity.
      * reflexivity.
      * reflexivity.
  - edestruct (two_attempts Sample.repr_row Sample.both_fail
                 Sample.question_text STORED_DB Sample.schema)
      as (_ & _ & Hfail).
    + reflexivity.
    + vm_compute. reflexivity.
    + discriminate.
    + eapply (execution_error _ _ _ _ Sample.fenced_bad_column).
      * reflexivity.
      * vm_compute. reflexivity.
      * reflexivity.
    + edestruct Hfail as [-> _].
      * apply (extraction_failure _ _ _ _ (lit "SELECT COUNT(*) FROM wells")).
        -- reflexivity.
        -- apply search_None_iff. vm_compute. reflexivity.
      * reflexivity.
Defined.

(** ** Responses without a fenced block *)

Section NoBlock.

Context {Row : Type} (repr_row : Row -> str) (w : World (Row:=Row)).

(** What is left in the trace when the loop ends after its last pass. *)
Lemma last_pass_trace db_file db_schema question attempt q r tr :
  exists rest,
    snd (retry_loop repr_row w db_file db_schema question 1 attempt q r tr)
    = tr ++ ModelCall (attempt_prompt db_schema question attempt q r) :: rest
    /\ model_calls rest = 0%nat.
Proof.
  rewrite retry_loop_unfold.
  destruct (attempt_body_trace repr_row w db_file db_schema question
              attempt q r tr) as (rest & Htr & Hm & _).
  exists rest. split; [|exact Hm].
  destruct (attempt_body _ _ _ _ _ _ _ _ _) as [[vars|e] tr'];
    cbn [snd] in Htr; subst tr'; [|reflexivity].
  destruct (negb _); reflexivity.
Qed.

(** C2. A response without a fenced sql block makes the attempt record the
    fixed error text and run no statement; after such a response at
    attempt 0 exactly one more prompt is sent, and when its response has no
    block either the handler gives the failure message, no statement
    having been run. *)
Theorem no_block_retries_once question db_file db_schema raw0 :
  path_exists w db_file = true ->
  get_db_schema w db_file [] = (Ret db_schema, []) ->
  db_schema <> [] ->
  generate_content w 0 (first_prompt db_schema question) = Ret raw0 ->
  ~ has_sql_block raw0 ->
  let p0 := first_prompt db_schema question in
  let p1 := retry_prompt db_schema question raw0 no_block_error in
  (forall attempt q r tr raw,
      generate_content w (model_calls tr)
        (attempt_prompt db_schema question attempt q r) = Ret raw ->
      ~ has_sql_block raw ->
      attempt_body repr_row w db_file db_schema question attempt q r tr
      = (Ret (raw, no_block_error),
         tr ++ [ModelCall (attempt_prompt db_schema question attempt q r)]))
  /\ (exists rest,
         snd (retry_loop repr_row w db_file db_schema question max_retries 0
                         [] [] [])
         = [ModelCall p0; ModelCall p1] ++ rest
         /\ model_calls rest = 0%nat)
  /\ (forall raw1,
         generate_content w 1 p1 = Ret raw1 ->
         ~ has_sql_block raw1 ->
         ask_on repr_row w question db_file []
         = (Ret (failure_response no_block_error),
            [ModelCall p0; ModelCall p1])).
Proof.
  intros He Hs Hne Hg0 Hb0 p0 p1.
  assert (H0 : attempt_fails w db_file p0 [] raw0 no_block_error
                             ([] ++ [ModelCall p0])).
  { apply extraction_failure; assumption. }
  split; [|split].
  - intros attempt q r tr raw Hg Hb. apply attempt_body_no_block; assumption.
  - unfold max_retries.
    rewrite (retry_loop_after_failure repr_row w db_file db_schema question
               1 0 [] [] [] _ _ _ H0).
    destruct (last_pass_trace db_file db_schema question 1 raw0 no_block_error
                ([] ++ [ModelCall p0])) as (rest & Htr & Hm).
    exists rest. split; [|exact Hm]. rewrite Htr. reflexivity.
  - intros raw1 Hg1 Hb1.
    apply (ask_on_both_fail repr_row w question db_file db_schema
             raw0 no_block_error ([] ++ [ModelCall p0])
             raw1 no_block_error (([] ++ [ModelCall p0]) ++ [ModelCall p1])
             He Hs Hne H0).
    apply extraction_failure; assumption.
Qed.

Lemma schema_loop_system db_file names acc tr :
  forallb is_system_table names = true ->
  schema_loop w db_file names acc tr = (Ret acc, tr).
Proof.
  induction names as [|name names IH]; intros H; [reflexivity|].
  cbn [forallb] in H. apply andb_prop in H as [Hn Hr].
  cbn [schema_loop]. unfold is_system_table in Hn. rewrite Hn. apply IH, Hr.
Qed.

(** C4. For a database file whose tables are all the engine's own, the
    handler answers 400 with the no-tables error and calls neither the
    model nor the engine's executor. *)
Theorem empty_schema_short_circuit question db_file names :
  path_exists w db_file = true ->
  sqlite_master w db_file = Ret names ->
  forallb is_system_table names = true ->
  ask_on repr_row w question db_file []
  = (Ret {| resp_body :=
              ErrorBody (lit "No tables found in the database: " ++ db_file);
            status := 400 |}, [])
  /\ model_calls (snd (ask_on repr_row w question db_file [])) = 0%nat.
Proof.
  intros He Hm Hsys.
  assert (Hask : ask_on repr_row w question db_file []
                 = (Ret {| resp_body :=
                             ErrorBody (lit "No tables found in the database: "
                                        ++ db_file);
                           status := 400 |}, [])).
  { unfold ask_on. rewrite He. cbn [negb].
    unfold try_except, bind, get_db_schema, bind, lift. rewrite Hm.
    rewrite (schema_loop_system db_file names [] [] Hsys). reflexivity. }
  split; [exact Hask | rewrite Hask; reflexivity].
Qed.

End NoBlock.

Lemma no_block_retries_once_witness :
  ask_on Sample.repr_row Sample.never_fenced Sample.question_text STORED_DB []
  = (Ret (failure_response no_block_error),
     [ModelCall (first_prompt Sample.schema Sample.question_text);
      ModelCall (retry_prompt Sample.schema Sample.question_text
                   (lit "SELECT COUNT(*) FROM wells") no_block_error)]).
Proof.
  edestruct (no_block_retries_once Sample.repr_row Sample.never_fenced
               Sample.question_text STORED_DB Sample.schema
               (lit "SELECT COUNT(*) FROM wells"))
    as (_ & _ & Hfail).
  - reflexivity.
  - vm_compute. reflexivity.
  - discriminate.
  - reflexivity.
  - apply search_None_iff. vm_compute. reflexivity.
  - apply (Hfail (lit "``` SELECT 1 ```")).
    + reflexivity.
    + apply search_None_iff. vm_compute. reflexivity.
Defined.

Lemma empty_schema_short_circuit_witness :
  ask_on Sample.repr_row Sample.no_user_table Sample.question_text
         UPLOADED_DB []
  = (Ret {| resp_body :=
              ErrorBody (lit "No tables found in the database: " ++ UPLOADED_DB);
            status := 400 |}, []).
Proof.
  apply (empty_schema_short_circuit Sample.repr_row Sample.no_user_table
           Sample.question_text UPLOADED_DB
           [lit "sqlite_sequence"; lit "sqlite_stat1"]).
  - reflexivity.
  - reflexivity.
  - vm_compute. reflexivity.
Defined.

(** ** What the trace keeps *)

Section Traces.

Context {Row : Type} (repr_row : Row -> str) (w : World (Row:=Row)).

Lemma retry_loop_extends db_file db_schema question n attempt q r tr :
  exists rest,
    snd (retry_loop repr_row w db_file db_schema question n attempt q r tr)
    = tr ++ rest.
Proof.
  revert attempt q r tr. induction n as [|n IH]; intros attempt q r tr.
  - exists []. rewrite app_nil_r. reflexivity.
  - rewrite retry_loop_unfold.
    destruct (attempt_body_trace repr_row w db_file db_schema question
                attempt q r tr) as (rest & Htr & _).
    destruct (attempt_body _ _ _ _ _ _ _ _ _) as [[vars|e] tr'];
      cbn [snd] in Htr; subst tr'.
    + destruct (negb _).
      * eexists. reflexivity.
      * destruct (IH (S attempt) (fst vars) (snd vars)
                     (tr ++ ModelCall
                              (attempt_prompt db_schema question attempt q r)
                         :: rest)) as (rest' & ->).
        rewrite <- app_assoc. eexists. reflexivity.
    + eexists. reflexivity.
Qed.

(** A loop with a pass left first sends the prompt of that pass. *)
Lemma retry_loop_first_call db_file db_schema question n attempt q r tr :
  exists rest,
    snd (retry_loop repr_row w db_file db_schema question (S n) attempt q r tr)
    = tr ++ ModelCall (attempt_prompt db_schema question attempt q r) :: rest.
Proof.
  rewrite retry_loop_unfold.
  destruct (attempt_body_trace repr_row w db_file db_schema question
              attempt q r tr) as (rest & Htr & _).
  destruct (attempt_body _ _ _ _ _ _ _ _ _) as [[vars|e] tr'];
    cbn [snd] in Htr; subst tr'.
  - destruct (negb _).
    + eexists. reflexivity.
    + destruct (retry_loop_extends db_file db_schema question n (S attempt)
                  (fst vars) (snd vars)
                  (tr ++ ModelCall
                           (attempt_prompt db_schema question attempt q r)
                      :: rest)) as (rest' & ->).
      rewrite <- app_assoc. eexists. reflexivity.
  - eexists. reflexivity.
Qed.

Lemma finish_extends question result_str tr :
  exists rest, snd (finish w question result_str tr) = tr ++ rest.
Proof.
  unfold finish. destruct (startswith _ _).
  - exists []. rewrite app_nil_r. reflexivity.
  - unfold bind, ask_gemini.
    destruct (generate_content w _ _); eexists; reflexivity.
Qed.

(** The handler keeps what the loop did. *)
Lemma ask_on_extends question db_file db_schema :
  path_exists w db_file = true ->
  get_db_schema w db_file [] = (Ret db_schema, []) ->
  db_schema <> [] ->
  exists rest,
    snd (ask_on repr_row w question db_file [])
    = snd (retry_loop repr_row w db_file db_schema question max_retries 0
                      [] [] []) ++ rest.
Proof.
  intros He Hs Hne. unfold ask_on. rewrite He. cbn [negb].
  unfold try_except, bind at 1. rewrite Hs.
  destruct db_schema as [|c db_schema]; [congruence|].
  unfold bind.
  destruct (retry_loop _ _ _ _ _ _ _ _ _ _) as [[vars|e] tr'].
  - destruct (finish_extends question (snd vars) tr') as (rest & Hf).
    exists rest. cbn [snd].
    destruct (finish w question (snd vars) tr') as [[resp|e] tr''];
      cbn [snd] in Hf; subst tr''; reflexivity.
  - exists []. rewrite app_nil_r. reflexivity.
Qed.

Lemma retry_prompt_embeds db_schema question sql_query result_str :
  embeds_failure (retry_prompt db_schema question sql_query result_str)
                 sql_query result_str.
Proof.
  unfold embeds_failure, retry_prompt.
  exists (lit "The previous attempt failed. Please fix it. You MUST follow these rules:" ++ nl
          ++ lit "1. **CRITICAL RULE:** Column names with spaces or special characters MUST be enclosed in double quotes ("
          ++ dq ++ lit ")." ++ nl
          ++ lit "2. To find total rainfall recharge, you MUST add "
          ++ dq ++ lit "Recharge from Rainfall-MON" ++ dq ++ lit " and "
          ++ dq ++ lit "Recharge from Rainfall-NM" ++ dq ++ lit "." ++ nl ++ nl
          ++ lit "Schema:" ++ nl ++ db_schema ++ nl
          ++ lit "Original Question: " ++ fmt question ++ nl),
         (nl ++ nl
          ++ lit "Provide only the corrected, valid SQLite query inside a ```sql code block.").
  rewrite <- !app_assoc. reflexivity.
Qed.

Lemma embeds_failure_occurs prompt sql_query result_str :
  embeds_failure prompt sql_query result_str ->
  occurs_in sql_query prompt /\ occurs_in result_str prompt.
Proof.
  intros (a & b & ->). split.
  - exists (a ++ lit "Failed Response/Query: "),
           (nl ++ lit "Error Message: " ++ result_str ++ b).
    rewrite <- !app_assoc. reflexivity.
  - exists (a ++ lit "Failed Response/Query: " ++ sql_query ++ nl
              ++ lit "Error Message: "), b.
    rewrite <- !app_assoc. reflexivity.
Qed.

(** C6. When an attempt fails recoverably and a pass is left, the next
    prompt sent to the model is the retry prompt built from the text that
    was tried (the extracted statement, or the raw response when nothing
    could be extracted) and from its error text, and both occur in it. *)
Theorem retry_prompt_carries_failure question db_file db_schema n attempt
        q r tr q0 e0 tr1 :
  attempt_fails w db_file (attempt_prompt db_schema question attempt q r)
                tr q0 e0 tr1 ->
  (exists rest,
      snd (retry_loop repr_row w db_file db_schema question (S (S n))
                      attempt q r tr)
      = tr1 ++ ModelCall (retry_prompt db_schema question q0 e0) :: rest)
  /\ embeds_failure (retry_prompt db_schema question q0 e0) q0 e0
  /\ occurs_in q0 (retry_prompt db_schema question q0 e0)
  /\ occurs_in e0 (retry_prompt db_schema question q0 e0)
  /\ (attempt = 0%nat -> q = [] -> r = [] -> tr = [] ->
      path_exists w db_file = true ->
      get_db_schema w db_file [] = (Ret db_schema, []) ->
      db_schema <> [] ->
      exists rest,
        snd (ask_on repr_row w question db_file [])
        = tr1 ++ ModelCall (retry_prompt db_schema question q0 e0) :: rest).
Proof.
  intros H0.
  pose proof (retry_prompt_embeds db_schema question q0 e0) as Hemb.
  destruct (embeds_failure_occurs _ _ _ Hemb) as [Hq He].
  split; [|split; [exact Hemb | split; [exact Hq | split; [exact He|]]]].
  - rewrite (retry_loop_after_failure repr_row w db_file db_schema question
               (S n) attempt q r tr q0 e0 tr1 H0).
    apply (retry_loop_first_call db_file db_schema question n (S attempt)
             q0 e0 tr1).
  - intros -> -> -> -> Hp Hs Hne.
    destruct (ask_on_extends question db_file db_schema Hp Hs Hne)
      as (rest & ->).
    unfold max_retries.
    rewrite (retry_loop_after_failure repr_row w db_file db_schema question
               1 0 [] [] [] q0 e0 tr1 H0).
    destruct (retry_loop_first_call db_file db_schema question 0 1 q0 e0 tr1)
      as (rest0 & ->).
    rewrite <- app_assoc. eexists. reflexivity.
Qed.

End Traces.

Lemma retry_prompt_carries_failure_witness :
  exists rest,
    snd (ask_on Sample.repr_row Sample.both_fail Sample.question_text
                STORED_DB [])
    = [ModelCall (first_prompt Sample.schema Sample.question_text);
       SqlExec STORED_DB (lit "SELECT depth FROM wells");
       ModelCall (retry_prompt Sample.schema Sample.question_text
                    (lit "SELECT depth FROM wells")
                    (lit "SQL Error: no such column: depth"))] ++ rest.
Proof.
  edestruct (retry_prompt_carries_failure Sample.repr_row Sample.both_fail
               Sample.question_text STORED_DB Sample.schema 0 0 [] [] [])
    as (_ & _ & _ & _ & Hflow).
  - eapply (execution_error _ _ _ _ Sample.fenced_bad_column).
    + reflexivity.
    + vm_compute. reflexivity.
    + reflexivity.
  - destruct Hflow as (rest & Hrest); try reflexivity; try discriminate.
    exists rest. rewrite Hrest. reflexivity.
Defined.

(** ** Results and their classification *)

Section Results.

Context {Row : Type} (repr_row : Row -> str) (w : World (Row:=Row)).

Lemma answer_prompt_embeds question result_str :
  embeds_result (answer_prompt question result_str) result_str.
Proof.
  exists (lit "User Question: " ++ fmt question ++ nl),
         (nl ++ lit "Provide a clear, natural language answer.").
  unfold answer_prompt. rewrite <- !app_assoc. reflexivity.
Qed.

Lemma answer_prompt_asks question result_str :
  occurs_in (fmt question) (answer_prompt question result_str).
Proof.
  exists (lit "User Question: "),
         (nl ++ lit "SQL Result: " ++ result_str ++ nl ++ nl
          ++ lit "Provide a clear, natural language answer.").
  reflexivity.
Qed.

(** C5. A statement that runs and returns no row is a success: the loop
    stops at that attempt with the text [[]], the model is asked to
    paraphrase it by a prompt that holds the question and, under its label,
    that text, and the paraphrase is the answer. *)
Theorem zero_rows_is_success question db_file db_schema :
  path_exists w db_file = true ->
  get_db_schema w db_file [] = (Ret db_schema, []) ->
  db_schema <> [] ->
  py_str repr_row (ResultRows []) = lit "[]"
  /\ (forall n attempt q r tr q' tr',
         attempt_succeeds w db_file
           (attempt_prompt db_schema question attempt q r) tr q' [] tr' ->
         retry_loop repr_row w db_file db_schema question (S n) attempt q r tr
         = (Ret (q', lit "[]"), tr'))
  /\ (forall q0 tr1 answer,
         attempt_succeeds w db_file (first_prompt db_schema question)
                          [] q0 [] tr1 ->
         generate_content w (model_calls tr1)
                          (answer_prompt question (lit "[]")) = Ret answer ->
         ask_on repr_row w question db_file []
         = (Ret (answer_response answer),
            tr1 ++ [ModelCall (answer_prompt question (lit "[]"))]))
  /\ (forall q0 e0 tr1 q1 tr2 answer,
         attempt_fails w db_file (first_prompt db_schema question)
                       [] q0 e0 tr1 ->
         attempt_succeeds w db_file (retry_prompt db_schema question q0 e0)
                          tr1 q1 [] tr2 ->
         generate_content w (model_calls tr2)
                          (answer_prompt question (lit "[]")) = Ret answer ->
         ask_on repr_row w question db_file []
         = (Ret (answer_response answer),
            tr2 ++ [ModelCall (answer_prompt question (lit "[]"))]))
  /\ embeds_result
       (answer_prompt question (py_str repr_row (ResultRows [])))
       (py_str repr_row (ResultRows []))
  /\ occurs_in (lit "[]") (answer_prompt question (lit "[]"))
  /\ occurs_in (fmt question) (answer_prompt question (lit "[]")).
Proof.
  intros He Hs Hne. split; [reflexivity|].
  split; [|split; [|split; [|split; [|split]]]];
    [ | | | apply answer_prompt_embeds
      | destruct (answer_prompt_embeds question (lit "[]")) as (a & b & ->);
        exists (a ++ lit "SQL Result: "), (nl ++ b);
        rewrite <- !app_assoc; reflexivity
      | apply answer_prompt_asks ].
  - intros n attempt q r tr q' tr' H.
    apply (retry_loop_after_success repr_row w db_file db_schema question
             n attempt q r tr q' [] tr' H).
  - intros q0 tr1 answer H Hg.
    apply (ask_on_after_loop repr_row w question db_file db_schema
             (q0, lit "[]") tr1 _ _ He Hs Hne).
    + apply (retry_loop_after_success repr_row w db_file db_schema question
               1 0 [] [] [] q0 [] tr1 H).
    + cbn [snd]. apply finish_answer; [reflexivity | exact Hg].
  - intros q0 e0 tr1 q1 tr2 answer H0 H1 Hg.
    apply (ask_on_after_loop repr_row w question db_file db_schema
             (q1, lit "[]") tr2 _ _ He Hs Hne).
    + apply (loop_second_succeeds repr_row w question db_file db_schema
               q0 e0 tr1 q1 [] tr2 H0 H1).
    + cbn [snd]. apply finish_answer; [reflexivity | exact Hg].
Qed.

(** C9, as the code has it.  The loop and the handler take an attempt for
    failed exactly when its result text starts with [SQL Error:]; the text
    of a statement that ran is a printed list, which starts with a bracket,
    so an attempt whose statement ran is never taken for failed. *)
Theorem error_prefix_classifies question db_file db_schema :
  (forall result_str tr,
      startswith result_str (lit "SQL Error:") = true ->
      finish w question result_str tr
      = (Ret (failure_response result_str), tr))
  /\ (forall result_str tr,
         startswith result_str (lit "SQL Error:") = false ->
         finish w question result_str tr
         = bind (ask_gemini w (answer_prompt question result_str))
                (fun answer => respond (AnswerBody answer) 200) tr)
  /\ (forall n attempt q r tr vars tr',
         attempt_body repr_row w db_file db_schema question attempt q r tr
         = (Ret vars, tr') ->
         retry_loop repr_row w db_file db_schema question (S n) attempt q r tr
         = if startswith (snd vars) (lit "SQL Error:")
           then retry_loop repr_row w db_file db_schema question n
                           (S attempt) (fst vars) (snd vars) tr'
           else (Ret vars, tr'))
  /\ (forall rows,
         startswith (py_str repr_row (ResultRows rows)) (lit "SQL Error:")
         = false)
  /\ (forall n attempt q r tr q' rows tr',
         attempt_succeeds w db_file
           (attempt_prompt db_schema question attempt q r) tr q' rows tr' ->
         retry_loop repr_row w db_file db_schema question (S n) attempt q r tr
         = (Ret (q', py_str repr_row (ResultRows rows)), tr')).
Proof.
  split; [|split; [|split; [|split]]].
  - intros result_str tr H. apply finish_error, H.
  - intros result_str tr H. unfold finish. rewrite H. reflexivity.
  - intros n attempt q r tr vars tr' H.
    rewrite retry_loop_unfold, H.
    destruct (startswith _ _); reflexivity.
  - apply rows_not_error.
  - intros n attempt q r tr q' rows tr' H.
    apply (retry_loop_after_success repr_row w db_file db_schema question
             n attempt q r tr q' rows tr' H).
Qed.

(** C3, as the code has it.  Once connected, [execute_sql] returns the
    fetched rows in order, and turns a statement error of the engine into
    the text [SQL Error: ] followed by the engine's message; an exception
    raised while connecting, or one outside SQLAlchemy's, goes on to the
    caller. *)
Theorem execute_sql_converts_statement_errors db_file sql_query tr :
  (forall rows,
      run_query w (sql_execs tr) db_file sql_query = Fetched rows ->
      fst (execute_sql w db_file sql_query tr) = Ret (ResultRows rows))
  /\ (forall orig msg,
         run_query w (sql_execs tr) db_file sql_query
         = ExecuteRaises (StatementError orig msg) ->
         fst (execute_sql w db_file sql_query tr)
         = Ret (ResultStr (lit "SQL Error: " ++ orig)))
  /\ (forall e,
         run_query w (sql_execs tr) db_file sql_query = ConnectRaises e ->
         fst (execute_sql w db_file sql_query tr) = Raise e)
  /\ (forall e,
         is_sqlalchemy_error e = false ->
         run_query w (sql_execs tr) db_file sql_query = ExecuteRaises e ->
         fst (execute_sql w db_file sql_query tr) = Raise e).
Proof.
  unfold execute_sql. repeat split.
  - intros rows ->. reflexivity.
  - intros orig msg ->. reflexivity.
  - intros e ->. reflexivity.
  - intros e He ->. destruct e; try discriminate He; reflexivity.
Qed.

(** C10. The stored database is chosen exactly for the chat type
    [sql-stored]; any other value, a missing one included, makes the
    handler run on the uploaded database as it would for any request. *)
Theorem db_selector_unvalidated (req : Request) :
  (select_db (chat_type req) = STORED_DB
   <-> chat_type req = JStr (lit "sql-stored"))
  /\ (chat_type req <> JStr (lit "sql-stored") ->
      select_db (chat_type req) = UPLOADED_DB
      /\ ask repr_row w req = ask_on repr_row w (question req) UPLOADED_DB)
  /\ (chat_type req = JStr (lit "sql-stored") ->
      ask repr_row w req = ask_on repr_row w (question req) STORED_DB)
  /\ select_db JNull = UPLOADED_DB
  /\ select_db (JStr (lit "stored")) = UPLOADED_DB
  /\ select_db (JStr (lit "uploaded")) = UPLOADED_DB.
Proof.
  assert (Hne : STORED_DB <> UPLOADED_DB) by discriminate.
  assert (Hsel : forall c, c <> JStr (lit "sql-stored") ->
                           select_db c = UPLOADED_DB).
  { intros [|s|p] Hc; try reflexivity. unfold select_db.
    destruct (str_eqb s (lit "sql-stored")) eqn:E; [|reflexivity].
    apply str_eqb_eq in E. congruence. }
  assert (Hst : select_db (JStr (lit "sql-stored")) = STORED_DB) by reflexivity.
  split; [|split; [|split; [|repeat split]]].
  - split.
    + intros H. destruct (chat_type req) as [|s|p] eqn:Ec;
        try (exfalso; apply Hne; symmetry; exact H).
      destruct (str_eqb s (lit "sql-stored")) eqn:E.
      * apply str_eqb_eq in E. congruence.
      * exfalso. apply Hne. unfold select_db in H. rewrite E in H.
        symmetry. exact H.
    + intros ->. exact Hst.
  - intros Hc. split; [apply Hsel, Hc|].
    unfold ask. rewrite (Hsel _ Hc). reflexivity.
  - intros Hc. unfold ask. rewrite Hc, Hst. reflexivity.
Qed.

End Results.

Lemma zero_rows_is_success_witness :
  ask_on Sample.repr_row Sample.zero_rows Sample.question_text STORED_DB []
  = (Ret (answer_response (lit "No well matches.")),
     [ModelCall (first_prompt Sample.schema Sample.question_text);
      SqlExec STORED_DB (lit "SELECT COUNT(*) FROM wells;");
      ModelCall (answer_prompt Sample.question_text (lit "[]"))]).
Proof.
  edestruct (zero_rows_is_success Sample.repr_row Sample.zero_rows
               Sample.question_text STORED_DB Sample.schema)
    as (_ & _ & Hfirst & _).
  - reflexivity.
  - vm_compute. reflexivity.
  - discriminate.
  - rewrite (Hfirst (lit "SELECT COUNT(*) FROM wells;")
               [ModelCall (first_prompt Sample.schema Sample.question_text);
                SqlExec STORED_DB (lit "SELECT COUNT(*) FROM wells;")]
               (lit "No well matches.")).
    + reflexivity.
    + apply (execution_rows Sample.zero_rows STORED_DB
               (first_prompt Sample.schema Sample.question_text) []
               Sample.fenced_count (lit "SELECT COUNT(*) FROM wells;") []).
      * reflexivity.
      * vm_compute. reflexivity.
      * reflexivity.
    + reflexivity.
Defined.

(** C9, as stated: no statement that ran prints as a text starting with
    [SQL Error:], whatever its rows and however they print. *)
Lemma fetched_rows_never_misclassified :
  ~ exists (Row : Type) (repr_row : Row -> str) (rows : list Row),
      startswith (py_str repr_row (ResultRows rows)) (lit "SQL Error:") = true.
Proof.
  intros (Row & repr_row & rows & H).
  rewrite rows_not_error in H. discriminate H.
Qed.

Lemma error_prefix_classifies_witness :
  finish Sample.second_try Sample.question_text no_block_error []
  = (Ret (failure_response no_block_error), [])
  /\ retry_loop Sample.repr_row Sample.zero_rows STORED_DB Sample.schema
                Sample.question_text 2 0 [] [] []
     = (Ret (lit "SELECT COUNT(*) FROM wells;", lit "[]"),
        [ModelCall (first_prompt Sample.schema Sample.question_text);
         SqlExec STORED_DB (lit "SELECT COUNT(*) FROM wells;")]).
Proof.
  destruct (error_prefix_classifies Sample.repr_row Sample.second_try
              Sample.question_text STORED_DB Sample.schema)
    as (Herr & _).
  destruct (error_prefix_classifies Sample.repr_row Sample.zero_rows
              Sample.question_text STORED_DB Sample.schema)
    as (_ & _ & _ & _ & Hok).
  split.
  - apply Herr. reflexivity.
  - apply (Hok 1%nat 0%nat [] [] [] (lit "SELECT COUNT(*) FROM wells;") []).
    apply (execution_rows Sample.zero_rows STORED_DB
             (first_prompt Sample.schema Sample.question_text) []
             Sample.fenced_count (lit "SELECT COUNT(*) FROM wells;") []).
    + reflexivity.
    + vm_compute. reflexivity.
    + reflexivity.
Defined.

(** C3, as stated: on a file that cannot be opened, [execute_sql] raises. *)
Lemma execute_sql_raises_when_connect_fails :
  fst (execute_sql Sample.cannot_connect (lit "/no/such/dir/x.db")
                   (lit "SELECT 1") [])
  = Raise (StatementError
             (lit "unable to open database file")
             (lit "(sqlite3.OperationalError) unable to open database file"))
  /\ ~ (forall (w : World (Row:=str)) (db_file sql_query : str)
               (tr : list event),
           exists r, fst (execute_sql w db_file sql_query tr) = Ret r).
Proof.
  split; [reflexivity|].
  intros H.
  destruct (H Sample.cannot_connect (lit "/no/such/dir/x.db") (lit "SELECT 1") [])
    as [r Hr].
  discriminate Hr.
Qed.

(** The handler of [execute_sql] reads [e.orig]; on an error without that
    attribute it raises in turn. *)
Example execute_sql_error_without_orig :
  fst (execute_sql Sample.not_a_query STORED_DB
                   (lit "CREATE TABLE t (x INTEGER)") [])
  = Raise (AttributeError
             (lit "'ResourceClosedError' object has no attribute 'orig'")).
Proof. reflexivity. Qed.

Lemma execute_sql_converts_statement_errors_witness :
  fst (execute_sql Sample.both_fail STORED_DB (lit "SELECT depth FROM wells") [])
  = Ret (ResultStr (lit "SQL Error: no such column: depth"))
  /\ fst (execute_sql Sample.second_try STORED_DB
                      (lit "SELECT COUNT(*) FROM wells;") [])
     = Ret (ResultRows [lit "(3,)"]).
Proof.
  destruct (execute_sql_converts_statement_errors Sample.both_fail STORED_DB
              (lit "SELECT depth FROM wells") []) as (_ & Herr & _).
  destruct (execute_sql_converts_statement_errors Sample.second_try STORED_DB
              (lit "SELECT COUNT(*) FROM wells;") []) as (Hrows & _).
  split.
  - apply (Herr (lit "no such column: depth")
                (lit "(sqlite3.OperationalError) no such column: depth")).
    reflexivity.
  - apply Hrows. reflexivity.
Defined.

Lemma db_selector_unvalidated_witness :
  ask Sample.repr_row Sample.second_try
      {| question := Sample.question_text; chat_type := JStr (lit "stored") |}
  = ask_on Sample.repr_row Sample.second_try Sample.question_text UPLOADED_DB.
Proof.
  destruct (db_selector_unvalidated Sample.repr_row Sample.second_try
              {| question := Sample.question_text;
                 chat_type := JStr (lit "stored") |})
    as (_ & Hother & _).
  apply Hother. discriminate.
Defined.

(** ** The schema description *)


Lemma fold_left_column_lines (columns : list colinfo) (schema_str : str) :
  fold_left (fun acc col => acc ++ column_line col) columns schema_str
  = schema_str ++ concat (List.map column_line columns).
Proof.
  revert schema_str. induction columns as [|col columns IH]; intros schema_str.
  - cbn. rewrite app_nil_r. reflexivity.
  - cbn [fold_left List.map concat]. rewrite IH, <- app_assoc. reflexivity.
Qed.

Lemma describe_cons_system t catalog :
  is_system_table (fst t) = true -> describe (t :: catalog) = describe catalog.
Proof. intros H. unfold describe, user_tables. cbn [List.filter]. rewrite H. reflexivity. Qed.

Lemma describe_cons_user t catalog :
  is_system_table (fst t) = false ->
  describe (t :: catalog) = describe_table t ++ describe catalog.
Proof. intros H. unfold describe, user_tables. cbn [List.filter]. rewrite H. reflexivity. Qed.





Section Schema.

Context {Row : Type} (w : World (Row:=Row)).



End Schema.



(** ** Uploads *)

Lemma replace_char_map (old new : N) (s : str) :
  replace_char old [new] s = List.map (fun c => if c =? old then new else c) s.
Proof.
  unfold replace_char. induction s as [|c s IH]; [reflexivity|].
  cbn [flat_map List.map]. rewrite IH. destruct (c =? old); reflexivity.
Qed.

Lemma table_name_map (filename : str) :
  table_name filename
  = List.map (fun c => if (c =? 32) || (c =? 45) then 95 else c)
             (fst (Path.splitext filename)).
Proof.
  unfold table_name. change (lit "_") with [95].
  rewrite !replace_char_map, List.map_map. apply List.map_ext.
  intros c. destruct (c =? 32); [reflexivity|]. reflexivity.
Qed.

Lemma rfind_from_absent (c : N) (p : str) (i last : Z) :
  ~ In c p -> Path.rfind_from c p i last = last.
Proof.
  revert i last. induction p as [|x p IH]; intros i last Hno; [reflexivity|].
  cbn [Path.rfind_from]. rewrite IH.
  - destruct (x =? c) eqn:E; [|reflexivity].
    apply N.eqb_eq in E. exfalso. apply Hno. left. exact E.
  - intros Hin. apply Hno. right. exact Hin.
Qed.

Section UploadFacts.

Context {Cell : Type} (pd : Pandas Cell).

Lemma to_sql_replace df name db :
  to_sql pd df name false IfReplace db
  = match create_raises pd name
            {| t_columns := df_columns df; t_rows := df_rows df |} with
    | Some e => (Raise e, delete name db)
    | None =>
        (Ret tt,
         <[name := {| t_columns := df_columns df; t_rows := df_rows df |}]> db)
    end.
Proof.
  unfold to_sql, frame_table, store.
  destruct (db !! name) eqn:E; destruct (create_raises pd _ _); try reflexivity.
  - rewrite insert_delete_eq. reflexivity.
  - rewrite (delete_id _ _ E). reflexivity.
Qed.

(** One step of the loop that goes on to the next file. *)
Lemma upload_loop_step f rest db resp db' :
  upload_loop pd (f :: rest) db = (Ret resp, db') ->
  status resp = 200 ->
  exists df,
    read_frame pd f = Some (Ret df)
    /\ upload_loop pd rest
         (<[table_name (filename f) :=
              {| t_columns := df_columns df; t_rows := df_rows df |}]> db)
       = (Ret resp, db').
Proof.
  cbn [upload_loop]. intros H Hst.
  destruct (read_frame pd f) as [[df|e]|].
  - rewrite to_sql_replace in H.
    destruct (create_raises pd _ _); [discriminate H|].
    exists df. auto.
  - discriminate H.
  - injection H as <- _. discriminate Hst.
Qed.

Lemma upload_loop_other files db resp db' name :
  upload_loop pd files db = (Ret resp, db') ->
  status resp = 200 ->
  (forall g, In g files -> table_name (filename g) <> name) ->
  db' !! name = db !! name.
Proof.
  revert db. induction files as [|f rest IH]; intros db H Hst Hother.
  - injection H as _ <-. reflexivity.
  - destruct (upload_loop_step f rest db resp db' H Hst) as (df & _ & Hrest).
    rewrite (IH _ Hrest Hst).
    + apply lookup_insert_ne. apply Hother. left. reflexivity.
    + intros g Hg. apply Hother. right. exact Hg.
Qed.

Lemma upload_loop_last_writer files db resp db' i f :
  upload_loop pd files db = (Ret resp, db') ->
  status resp = 200 ->
  files !! i = Some f ->
  (forall j g, (i < j)%nat -> files !! j = Some g ->
               table_name (filename g) <> table_name (filename f)) ->
  exists df,
    read_frame pd f = Some (Ret df)
    /\ db' !! table_name (filename f)
       = Some {| t_columns := df_columns df; t_rows := df_rows df |}.
Proof.
  revert db i. induction files as [|f0 rest IH]; intros db i H Hst Hi Hlater.
  - discriminate Hi.
  - destruct (upload_loop_step f0 rest db resp db' H Hst) as (df & Hread & Hrest).
    destruct i as [|i].
    + injection Hi as ->. exists df. split; [exact Hread|].
      rewrite (upload_loop_other rest _ resp db' _ Hrest Hst).
      * apply lookup_insert_eq.
      * intros g Hg. apply list_elem_of_In, list_elem_of_lookup in Hg as [j Hj].
        apply (Hlater (S j) g); [lia | exact Hj].
    + apply (IH _ i Hrest Hst Hi).
      intros j g Hij Hj. apply (Hlater (S j) g); [lia | exact Hj].
Qed.

(** C8, as the code has it.  The table of an uploaded file is named by the
    file name without its extension, every space and hyphen turned into an
    underscore ([Rainfall Data-2023.csv] gives [Rainfall_Data_2023]); for a
    file name without a slash that is its normalized base name, and a
    directory part, when there is one, stays in the table name.  After a
    successful upload that table holds the column labels and rows of the
    frame pandas read from the file, with no index column, whatever table of
    that name was there before. *)
Theorem upload_creates_named_table :
  table_name (lit "Rainfall Data-2023.csv") = lit "Rainfall_Data_2023"
  /\ (forall filename,
         table_name filename
         = List.map (fun c => if (c =? 32) || (c =? 45) then 95 else c)
                    (fst (Path.splitext filename)))
  /\ (forall f df db,
         read_frame pd f = Some (Ret df) ->
         create_raises pd (table_name (filename f))
                       {| t_columns := df_columns df; t_rows := df_rows df |}
         = None ->
         upload_files pd [f] db
         = (Ret uploaded,
            <[table_name (filename f) :=
                {| t_columns := df_columns df; t_rows := df_rows df |}]> db))
  /\ (forall files db resp db' i f,
         upload_files pd files db = (Ret resp, db') ->
         status resp = 200 ->
         files !! i = Some f ->
         (forall j g, (i < j)%nat -> files !! j = Some g ->
                      table_name (filename g) <> table_name (filename f)) ->
         exists df,
           read_frame pd f = Some (Ret df)
           /\ db' !! table_name (filename f)
              = Some {| t_columns := df_columns df; t_rows := df_rows df |})
  /\ (forall filename,
         ~ In 47 filename ->
         table_name filename
         = normalized (fst (Path.splitext (basename filename)))).
Proof.
  split; [vm_compute; reflexivity|]. split; [apply table_name_map|].
  split; [|split].
  3:{ intros filename Hno. unfold basename, Path.rfind.
      rewrite (rfind_from_absent 47 filename 0 (-1) Hno).
      cbn [Z.add Z.to_nat drop]. apply table_name_map. }
  - intros f df db Hread Hcreate.
    unfold upload_files. cbn [upload_loop].
    rewrite Hread, to_sql_replace. rewrite Hcreate. reflexivity.
  - intros files db resp db' i f H Hst Hi Hlater.
    destruct files as [|f0 rest]; [discriminate Hi|].
    apply (upload_loop_last_writer (f0 :: rest) db resp db' i f H Hst Hi Hlater).
Qed.

End UploadFacts.

Lemma upload_creates_named_table_witness :
  upload_files Sample.pandas [Sample.rainfall_file] Sample.old_tables
  = (Ret uploaded,
     <[lit "Rainfall_Data_2023" :=
         {| t_columns := [lit "State"; lit "Recharge from Rainfall-MON"];
            t_rows := [[lit "Goa"; lit "12.5"]] |}]> Sample.old_tables).
Proof.
  destruct (upload_creates_named_table Sample.pandas) as (Hname & _ & Hone & _).
  rewrite <- Hname.
  apply (Hone Sample.rainfall_file Sample.rainfall_frame Sample.old_tables).
  - vm_compute. reflexivity.
  - reflexivity.
Defined.

(** C8, as stated: a file name sent with a directory part gives a table
    name that is not the normalized base name, and the labels pandas gives
    the columns of a sheet whose header repeats a label or leaves one empty
    are not the cells of the header row. *)
Lemma upload_name_and_columns_differ :
  table_name (filename Sample2.nested_file) = lit "in/dir_1/na_me"
  /\ normalized (fst (Path.splitext (basename (filename Sample2.nested_file))))
     = lit "na_me"
  /\ table_name (filename Sample2.nested_file)
     <> normalized
          (fst (Path.splitext (basename (filename Sample2.nested_file))))
  /\ header_row (stream Sample2.repeated_header_file) = [lit "a"; lit "a"; []]
  /\ exists db',
      upload_files Sample2.pandas_renaming [Sample2.repeated_header_file] ∅
      = (Ret uploaded, db')
      /\ t_columns <$> db' !! lit "levels"
         = Some [lit "a"; lit "a.1"; lit "Unnamed: 2"]
      /\ t_columns <$> db' !! lit "levels"
         <> Some (header_row (stream Sample2.repeated_header_file)).
Proof.
  split; [vm_compute; reflexivity|]. split; [vm_compute; reflexivity|].
  split; [vm_compute; discriminate|].
  split; [vm_compute; reflexivity|].
  eexists. split; [reflexivity|].
  split; [vm_compute; reflexivity | vm_compute; discriminate].
Qed.

(** * More of the handlers *)

(** ** The handler [/ask] as a whole *)

Section AskWhole.

Context {Row : Type} (repr_row : Row -> str) (w : World (Row:=Row)).

Lemma schema_loop_keeps_trace db_file names schema_str tr :
  snd (schema_loop w db_file names schema_str tr) = tr.
Proof.
  revert schema_str. induction names as [|name names IH]; intros schema_str.
  - reflexivity.
  - cbn [schema_loop]. destruct (startswith name (lit "sqlite_")); [apply IH|].
    unfold bind, lift. destruct (table_info w db_file name); [apply IH | reflexivity].
Qed.

Lemma get_db_schema_keeps_trace db_file tr :
  snd (get_db_schema w db_file tr) = tr.
Proof.
  unfold get_db_schema, bind, lift.
  destruct (sqlite_master w db_file); [apply schema_loop_keeps_trace | reflexivity].
Qed.

(** The events of one pass: a prompt, then at most one statement on
    [db_file]. *)
Lemma attempt_body_events db_file db_schema question attempt q r tr :
  let p := attempt_prompt db_schema question attempt q r in
  snd (attempt_body repr_row w db_file db_schema question attempt q r tr)
  = tr ++ [ModelCall p]
  \/ exists sql_query,
      snd (attempt_body repr_row w db_file db_schema question attempt q r tr)
      = tr ++ [ModelCall p; SqlExec db_file sql_query].
Proof.
  intros p. unfold attempt_body, bind, ask_gemini. fold p.
  destruct (generate_content w _ _) as [raw|e]; [|left; reflexivity].
  destruct (Re.search raw) as [g|]; [|left; reflexivity].
  right. exists (strip g). unfold execute_sql. rewrite <- app_assoc.
  destruct (run_query w _ _ _) as [e|rows|[]]; reflexivity.
Qed.

(** What the loop adds to the trace: at most [n] prompts, at most [n]
    statements, all of them on [db_file]. *)
Lemma retry_loop_adds db_file db_schema question n attempt q r tr :
  exists rest,
    snd (retry_loop repr_row w db_file db_schema question n attempt q r tr)
    = tr ++ rest
    /\ (model_calls rest <= n)%nat /\ (sql_execs rest <= n)%nat
    /\ Forall (on_db db_file) rest.
Proof.
  revert attempt q r tr. induction n as [|n IH]; intros attempt q r tr.
  - exists []. rewrite app_nil_r.
    repeat split; try (cbn; lia); repeat constructor.
  - rewrite retry_loop_unfold.
    pose proof (attempt_body_events db_file db_schema question attempt q r tr)
      as Hev. cbv zeta in Hev.
    set (p := attempt_prompt db_schema question attempt q r) in *.
    assert (Hone : exists one,
               snd (attempt_body repr_row w db_file db_schema question
                                 attempt q r tr) = tr ++ one
               /\ (model_calls one <= 1)%nat /\ (sql_execs one <= 1)%nat
               /\ Forall (on_db db_file) one).
    { destruct Hev as [Hev | (sql & Hev)]; rewrite Hev.
      - exists [ModelCall p].
        repeat split; try (cbn; lia); repeat constructor.
      - exists [ModelCall p; SqlExec db_file sql].
        repeat split; try (cbn; lia); repeat constructor. }
    destruct Hone as (one & Htr & Hm & Hx & Hdb).
    destruct (attempt_body _ _ _ _ _ _ _ _ _) as [[vars|e] tr'];
      cbn [snd] in Htr; subst tr'.
    + destruct (negb _).
      * exists one. repeat split; try lia; assumption.
      * destruct (IH (S attempt) (fst vars) (snd vars) (tr ++ one))
          as (rest & -> & Hm' & Hx' & Hdb').
        exists (one ++ rest). rewrite <- app_assoc.
        rewrite model_calls_app, sql_execs_app.
        repeat split; try lia. apply Forall_app. split; assumption.
    + exists one. repeat split; try lia; assumption.
Qed.

Lemma finish_shape question result_str tr resp tr' :
  finish w question result_str tr = (Ret resp, tr') ->
  ask_response_shape resp.
Proof.
  unfold finish, respond, ret. destruct (startswith _ _).
  - intros [= <- _]. reflexivity.
  - unfold bind, ask_gemini. destruct (generate_content w _ _); [|discriminate].
    intros [= <- _]. reflexivity.
Qed.

Lemma finish_adds question result_str tr :
  snd (finish w question result_str tr) = tr
  \/ snd (finish w question result_str tr)
     = tr ++ [ModelCall (answer_prompt question result_str)].
Proof.
  unfold finish. destruct (startswith _ _); [left; reflexivity|].
  right. unfold bind, ask_gemini. destruct (generate_content w _ _); reflexivity.
Qed.

(** The trace of the handler: what the loop did, then at most the
    paraphrase prompt. *)
Lemma ask_on_trace question db_file :
  snd (ask_on repr_row w question db_file []) = []
  \/ exists db_schema last,
      snd (ask_on repr_row w question db_file [])
      = snd (retry_loop repr_row w db_file db_schema question max_retries 0
                        [] [] []) ++ last
      /\ (last = [] \/ exists p, last = [ModelCall p]).
Proof.
  set (T := snd (ask_on repr_row w question db_file [])).
  assert (HT : T = snd (ask_on repr_row w question db_file [])) by reflexivity.
  clearbody T. unfold ask_on in HT.
  destruct (path_exists w db_file); [|left; exact HT].
  cbn [negb] in HT. unfold try_except, bind at 1 in HT.
  pose proof (get_db_schema_keeps_trace db_file []) as Hs.
  destruct (get_db_schema w db_file []) as [[db_schema|e] tr0];
    cbn [snd] in Hs; subst tr0; [|left; exact HT].
  destruct db_schema as [|c db_schema]; [left; exact HT|].
  right. exists (c :: db_schema). unfold bind in HT.
  destruct (retry_loop _ _ _ _ _ _ _ _ _ _) as [[vars|e] tr'].
  - cbn [snd].
    destruct (finish_adds question (snd vars) tr') as [Hf | Hf];
      destruct (finish w question (snd vars) tr') as [[resp|e] tr''];
      cbn [snd] in Hf; subst tr''; cbn [respond ret snd] in HT; subst T.
    + exists []. rewrite app_nil_r. auto.
    + exists []. rewrite app_nil_r. auto.
    + eexists. split; [reflexivity|]. right. eexists. reflexivity.
    + eexists. split; [reflexivity|]. right. eexists. reflexivity.
  - exists []. cbn [respond ret snd] in HT. subst T. cbn [snd].
    rewrite app_nil_r. auto.
Qed.

Lemma ask_object_responds (req : Request) :
  exists resp tr,
    ask repr_row w req [] = (Ret resp, tr) /\ ask_response_shape resp.
Proof.
  unfold ask, ask_on. destruct (path_exists w _).
  2:{ eexists _, _. split; [reflexivity|]. left. reflexivity. }
  cbn [negb]. unfold try_except.
  match goal with
  | |- context [match ?c [] with _ => _ end] => destruct (c []) as [[resp|e] tr] eqn:Hc
  end.
  - exists resp, tr. split; [reflexivity|].
    unfold bind at 1 in Hc.
    destruct (get_db_schema w _ []) as [[db_schema|e] tr0]; [|discriminate Hc].
    destruct db_schema as [|c db_schema].
    + injection Hc as <- _. left. reflexivity.
    + unfold bind in Hc.
      destruct (retry_loop _ _ _ _ _ _ _ _ _ _) as [[vars|e] tr']; [|discriminate Hc].
      apply (finish_shape _ _ _ _ _ Hc).
  - eexists _, _. split; [reflexivity|]. right. reflexivity.
Qed.

(** X1. On a body that is a JSON object, whatever the model, the engine and
    the file system do, the view function returns a response and raises
    nothing: an answer with status 200, or an error with status 400 or 500.
    On any other JSON value it raises at [data.get], before the [try], with
    nothing read or called. *)
Theorem ask_view_responds :
  (forall req,
      exists resp tr,
        ask_view repr_row w (BodyObject req) [] = (Ret resp, tr)
        /\ ask_response_shape resp)
  /\ (forall type_name tr,
         ask_view repr_row w (BodyOther type_name) tr
         = (Raise (AttributeError
                     (lit "'" ++ type_name
                      ++ lit "' object has no attribute 'get'")), tr)).
Proof.
  split.
  - intros req. apply ask_object_responds.
  - intros type_name tr. reflexivity.
Qed.

(** X2. One request makes at most three calls to the model and at most two
    calls of [execute_sql], the executor of the statements the model wrote;
    the statements by which [get_db_schema] reads the schema are not
    counted. *)
Theorem ask_call_budget (req : Request) :
  (model_calls (snd (ask repr_row w req [])) <= 3)%nat
  /\ (sql_execs (snd (ask repr_row w req [])) <= 2)%nat.
Proof.
  unfold ask.
  destruct (ask_on_trace (question req) (select_db (chat_type req)))
    as [-> | (db_schema & last & -> & Hlast)].
  - split; cbn; lia.
  - destruct (retry_loop_adds (select_db (chat_type req)) db_schema
                (question req) max_retries 0 [] [] [])
      as (rest & -> & Hm & Hx & _).
    unfold max_retries in *.
    rewrite !model_calls_app, !sql_execs_app.
    destruct Hlast as [-> | [p ->]]; cbn; lia.
Qed.

(** X3. Every statement of a request runs on the database file chosen from
    [chat_type], never on the other one. *)
Theorem ask_runs_on_selected_db (req : Request) :
  Forall (on_db (select_db (chat_type req))) (snd (ask repr_row w req [])).
Proof.
  unfold ask.
  destruct (ask_on_trace (question req) (select_db (chat_type req)))
    as [-> | (db_schema & last & -> & Hlast)].
  - constructor.
  - destruct (retry_loop_adds (select_db (chat_type req)) db_schema
                (question req) max_retries 0 [] [] [])
      as (rest & -> & _ & _ & Hdb).
    apply Forall_app. split; [exact Hdb|].
    destruct Hlast as [-> | [p ->]]; repeat constructor.
Qed.

End AskWhole.

(** ** Failures that are not retried *)

Section AskErrors.

Context {Row : Type} (repr_row : Row -> str) (w : World (Row:=Row)).

Lemma ask_on_schema_raises question db_file e :
  path_exists w db_file = true ->
  get_db_schema w db_file [] = (Raise e, []) ->
  ask_on repr_row w question db_file [] = (Ret (unexpected_response e), []).
Proof.
  intros He Hs. unfold ask_on. rewrite He. cbn [negb].
  unfold try_except, bind at 1. rewrite Hs. reflexivity.
Qed.

Lemma ask_on_loop_raises question db_file db_schema e tr :
  path_exists w db_file = true ->
  get_db_schema w db_file [] = (Ret db_schema, []) ->
  db_schema <> [] ->
  retry_loop repr_row w db_file db_schema question max_retries 0 [] [] []
  = (Raise e, tr) ->
  ask_on repr_row w question db_file [] = (Ret (unexpected_response e), tr).
Proof.
  intros He Hs Hne Hl. unfold ask_on. rewrite He. cbn [negb].
  unfold try_except, bind at 1. rewrite Hs.
  destruct db_schema as [|c db_schema]; [congruence|].
  unfold bind. rewrite Hl. reflexivity.
Qed.

Lemma ask_on_finish_raises question db_file db_schema vars tr e tr' :
  path_exists w db_file = true ->
  get_db_schema w db_file [] = (Ret db_schema, []) ->
  db_schema <> [] ->
  retry_loop repr_row w db_file db_schema question max_retries 0 [] [] []
  = (Ret vars, tr) ->
  finish w question (snd vars) tr = (Raise e, tr') ->
  ask_on repr_row w question db_file [] = (Ret (unexpected_response e), tr').
Proof.
  intros He Hs Hne Hl Hf. unfold ask_on. rewrite He. cbn [negb].
  unfold try_except, bind at 1. rewrite Hs.
  destruct db_schema as [|c db_schema]; [congruence|].
  unfold bind. rewrite Hl, Hf. reflexivity.
Qed.

Lemma execute_sql_logs db_file sql_query tr :
  snd (execute_sql w db_file sql_query tr) = tr ++ [SqlExec db_file sql_query].
Proof.
  unfold execute_sql. destruct (run_query w _ _ _) as [e|rows|[]]; reflexivity.
Qed.

Lemma schema_loop_app db_file catalog names schema_str tr :
  Forall (fun t => is_system_table (fst t) = false ->
                   table_info w db_file (fst t) = Ret (snd t)) catalog ->
  schema_loop w db_file (List.map fst catalog ++ names) schema_str tr
  = schema_loop w db_file names (schema_str ++ describe catalog) tr.
Proof.
  intros H. revert schema_str.
  induction H as [|t catalog Ht Hrest IH]; intros schema_str.
  - cbn. rewrite app_nil_r. reflexivity.
  - cbn [List.map app schema_loop].
    fold (is_system_table (fst t)).
    destruct (is_system_table (fst t)) eqn:Hsys.
    + rewrite IH, (describe_cons_system _ _ Hsys). reflexivity.
    + unfold bind, lift. rewrite (Ht eq_refl), fold_left_column_lines, IH.
      rewrite (describe_cons_user _ _ Hsys).
      unfold describe_table, table_header.
      rewrite <- !app_assoc. reflexivity.
Qed.

(** X4. When the first prompt can be built, it is the first thing sent to
    the model, and it holds the schema description and the question as they
    are. *)
Theorem first_prompt_sent_first question db_file db_schema :
  path_exists w db_file = true ->
  get_db_schema w db_file [] = (Ret db_schema, []) ->
  db_schema <> [] ->
  (exists rest,
      snd (ask_on repr_row w question db_file [])
      = ModelCall (first_prompt db_schema question) :: rest)
  /\ occurs_in db_schema (first_prompt db_schema question)
  /\ occurs_in (fmt question) (first_prompt db_schema question).
Proof.
  intros He Hs Hne. split; [|split].
  - destruct (ask_on_extends repr_row w question db_file db_schema He Hs Hne)
      as (rest & ->).
    destruct (retry_loop_first_call repr_row w db_file db_schema question
                1 0 [] [] []) as (rest' & Hl).
    unfold max_retries. rewrite Hl. eexists. reflexivity.
  - unfold first_prompt.
    exists (lit "You are an expert SQLite writer. You MUST follow these rules:" ++ nl
            ++ lit "1. **CRITICAL RULE:** Column names with spaces or special characters MUST be enclosed in double quotes ("
            ++ dq ++ lit "). For example, to use a column named 'Recharge from Rainfall-MON', you must write `SELECT "
            ++ dq ++ lit "Recharge from Rainfall-MON" ++ dq ++ lit "`." ++ nl
            ++ lit "2. To find the total recharge from rainfall, you MUST add the "
            ++ dq ++ lit "Recharge from Rainfall-MON" ++ dq ++ lit " and "
            ++ dq ++ lit "Recharge from Rainfall-NM" ++ dq ++ lit " columns together." ++ nl ++ nl
            ++ lit "Here is the database schema:" ++ nl),
           (nl ++ nl ++ lit "---" ++ nl ++ nl
            ++ lit "Based on all the rules and the schema, write a single, valid SQLite query to answer the question: "
            ++ fmt question).
    rewrite <- !app_assoc. reflexivity.
  - unfold first_prompt.
    exists (lit "You are an expert SQLite writer. You MUST follow these rules:" ++ nl
            ++ lit "1. **CRITICAL RULE:** Column names with spaces or special characters MUST be enclosed in double quotes ("
            ++ dq ++ lit "). For example, to use a column named 'Recharge from Rainfall-MON', you must write `SELECT "
            ++ dq ++ lit "Recharge from Rainfall-MON" ++ dq ++ lit "`." ++ nl
            ++ lit "2. To find the total recharge from rainfall, you MUST add the "
            ++ dq ++ lit "Recharge from Rainfall-MON" ++ dq ++ lit " and "
            ++ dq ++ lit "Recharge from Rainfall-NM" ++ dq ++ lit " columns together." ++ nl ++ nl
            ++ lit "Here is the database schema:" ++ nl ++ db_schema ++ nl ++ nl
            ++ lit "---" ++ nl ++ nl
            ++ lit "Based on all the rules and the schema, write a single, valid SQLite query to answer the question: "),
           [].
    rewrite app_nil_r, <- !app_assoc. reflexivity.
Qed.

(** X5. When reading the schema raises (the table list, or the columns of a
    user table after tables that read well), the handler answers 500 with
    the text of the exception and the model is never called. *)
Theorem schema_failure_is_500 question db_file e :
  path_exists w db_file = true ->
  (sqlite_master w db_file = Raise e
   \/ exists catalog name names,
       sqlite_master w db_file = Ret (List.map fst catalog ++ name :: names)
       /\ Forall (fun t => is_system_table (fst t) = false ->
                           table_info w db_file (fst t) = Ret (snd t)) catalog
       /\ is_system_table name = false
       /\ table_info w db_file name = Raise e) ->
  ask_on repr_row w question db_file [] = (Ret (unexpected_response e), []).
Proof.
  intros He H. apply ask_on_schema_raises; [exact He|].
  unfold get_db_schema, bind, lift.
  destruct H as [-> | (catalog & name & names & -> & Hcat & Hsys & Hinfo)];
    [reflexivity|].
  rewrite (schema_loop_app db_file catalog (name :: names) [] [] Hcat).
  cbn [schema_loop]. unfold is_system_table in Hsys. rewrite Hsys.
  unfold bind, lift. rewrite Hinfo. reflexivity.
Qed.

(** X6. A model call that raises is not retried: when the first call raises,
    the handler answers 500 after that one call; when the paraphrase call
    raises after a statement ran at attempt 0, the handler answers 500 and
    the rows are not returned. *)
Theorem model_failure_is_500 question db_file db_schema e :
  path_exists w db_file = true ->
  get_db_schema w db_file [] = (Ret db_schema, []) ->
  db_schema <> [] ->
  (generate_content w 0 (first_prompt db_schema question) = Raise e ->
   ask_on repr_row w question db_file []
   = (Ret (unexpected_response e),
      [ModelCall (first_prompt db_schema question)]))
  /\ (forall q0 rows tr1,
         attempt_succeeds w db_file (first_prompt db_schema question)
                          [] q0 rows tr1 ->
         generate_content w (model_calls tr1)
           (answer_prompt question (py_str repr_row (ResultRows rows)))
         = Raise e ->
         ask_on repr_row w question db_file []
         = (Ret (unexpected_response e),
            tr1 ++ [ModelCall
                      (answer_prompt question
                         (py_str repr_row (ResultRows rows)))])).
Proof.
  intros He Hs Hne. split.
  - intros Hg.
    apply (ask_on_loop_raises question db_file db_schema e _ He Hs Hne).
    unfold max_retries. rewrite retry_loop_unfold.
    unfold attempt_body, bind, ask_gemini, attempt_prompt.
    change (model_calls []) with 0%nat. rewrite Hg. reflexivity.
  - intros q0 rows tr1 H0 Hg.
    apply (ask_on_finish_raises question db_file db_schema
             (q0, py_str repr_row (ResultRows rows)) tr1 e _ He Hs Hne).
    + apply (retry_loop_after_success repr_row w db_file db_schema question
               1 0 [] [] [] q0 rows tr1 H0).
    + cbn [snd]. unfold finish. rewrite rows_not_error.
      unfold bind, ask_gemini. rewrite Hg. reflexivity.
Qed.

(** X7. An exception of the executor is not retried either.  When the
    statement of attempt 0 makes the engine raise an error without [.orig]
    (a statement that returns no rows), the handler answers 500 with the
    attribute error; when connecting raises, or the engine raises outside
    SQLAlchemy's errors, it answers 500 with that exception.  No second
    prompt is sent. *)
Theorem executor_exception_is_500 question db_file db_schema raw group1 :
  path_exists w db_file = true ->
  get_db_schema w db_file [] = (Ret db_schema, []) ->
  db_schema <> [] ->
  generate_content w 0 (first_prompt db_schema question) = Ret raw ->
  Re.search raw = Some group1 ->
  let tr1 := [ModelCall (first_prompt db_schema question);
              SqlExec db_file (strip group1)] in
  (forall cls msg,
      run_query w 0 db_file (strip group1)
      = ExecuteRaises (SQLAlchemyError cls msg) ->
      ask_on repr_row w question db_file []
      = (Ret (unexpected_response
                (AttributeError
                   (lit "'" ++ cls ++ lit "' object has no attribute 'orig'"))),
         tr1))
  /\ (forall e,
         run_query w 0 db_file (strip group1) = ConnectRaises e ->
         ask_on repr_row w question db_file []
         = (Ret (unexpected_response e), tr1))
  /\ (forall e,
         is_sqlalchemy_error e = false ->
         run_query w 0 db_file (strip group1) = ExecuteRaises e ->
         ask_on repr_row w question db_file []
         = (Ret (unexpected_response e), tr1)).
Proof.
  intros He Hs Hne Hg Hm tr1.
  assert (Hloop : forall e,
             fst (execute_sql w db_file (strip group1)
                              [ModelCall (first_prompt db_schema question)])
             = Raise e ->
             retry_loop repr_row w db_file db_schema question max_retries 0
                        [] [] [] = (Raise e, tr1)).
  { intros e Hx. unfold max_retries. rewrite retry_loop_unfold.
    unfold attempt_body, bind, ask_gemini, attempt_prompt.
    change (model_calls []) with 0%nat. rewrite Hg, Hm.
    change ([] ++ [ModelCall (first_prompt db_schema question)])
      with [ModelCall (first_prompt db_schema question)].
    destruct (execute_sql w db_file (strip group1) _) as [o tr'] eqn:Hex.
    cbn [fst] in Hx. subst o.
    pose proof (execute_sql_logs db_file (strip group1)
                  [ModelCall (first_prompt db_schema question)]) as Hlog.
    rewrite Hex in Hlog. cbn [snd] in Hlog. subst tr'. reflexivity. }
  split; [|split].
  - intros cls msg Hr.
    apply (ask_on_loop_raises question db_file db_schema _ _ He Hs Hne).
    apply Hloop. unfold execute_sql.
    change (sql_execs [ModelCall (first_prompt db_schema question)]) with 0%nat.
    rewrite Hr. reflexivity.
  - intros e Hr.
    apply (ask_on_loop_raises question db_file db_schema _ _ He Hs Hne).
    apply Hloop. unfold execute_sql.
    change (sql_execs [ModelCall (first_prompt db_schema question)]) with 0%nat.
    rewrite Hr. reflexivity.
  - intros e Hsa Hr.
    apply (ask_on_loop_raises question db_file db_schema _ _ He Hs Hne).
    apply Hloop. unfold execute_sql.
    change (sql_execs [ModelCall (first_prompt db_schema question)]) with 0%nat.
    rewrite Hr. destruct e; try discriminate Hsa; reflexivity.
Qed.

End AskErrors.

Lemma first_prompt_sent_first_witness :
  exists rest,
    snd (ask_on Sample.repr_row Sample.second_try Sample.question_text
                STORED_DB [])
    = ModelCall (first_prompt Sample.schema Sample.question_text) :: rest.
Proof.
  apply (first_prompt_sent_first Sample.repr_row Sample.second_try
           Sample.question_text STORED_DB Sample.schema).
  - reflexivity.
  - vm_compute. reflexivity.
  - discriminate.
Defined.

Lemma schema_failure_is_500_witness :
  ask_on Sample.repr_row Sample2.not_a_database Sample.question_text
         UPLOADED_DB []
  = (Ret (unexpected_response
            (StatementError (lit "file is not a database")
               (lit "(sqlite3.DatabaseError) file is not a database"))), []).
Proof.
  apply (schema_failure_is_500 Sample.repr_row Sample2.not_a_database
           Sample.question_text UPLOADED_DB).
  - reflexivity.
  - left. reflexivity.
Defined.

Lemma model_failure_is_500_witness :
  ask_on Sample.repr_row Sample2.model_down Sample.question_text STORED_DB []
  = (Ret (unexpected_response (OtherException (lit "model unavailable"))),
     [ModelCall (first_prompt Sample.schema Sample.question_text)]).
Proof.
  edestruct (model_failure_is_500 Sample.repr_row Sample2.model_down
               Sample.question_text STORED_DB Sample.schema)
    as (Hfirst & _).
  - reflexivity.
  - vm_compute. reflexivity.
  - discriminate.
  - apply Hfirst. reflexivity.
Defined.

Lemma executor_exception_is_500_witness :
  ask_on Sample.repr_row Sample2.create_statement Sample.question_text
         STORED_DB []
  = (Ret (unexpected_response
            (AttributeError
               (lit "'ResourceClosedError' object has no attribute 'orig'"))),
     [ModelCall (first_prompt Sample.schema Sample.question_text);
      SqlExec STORED_DB (lit "CREATE TABLE t (x INTEGER)")]).
Proof.
  edestruct (executor_exception_is_500 Sample.repr_row Sample2.create_statement
               Sample.question_text STORED_DB Sample.schema
               (lit "```sql CREATE TABLE t (x INTEGER) ```")
               (lit "CREATE TABLE t (x INTEGER)"))
    as (Hnoorig & _).
  - reflexivity.
  - vm_compute. reflexivity.
  - discriminate.
  - reflexivity.
  - vm_compute. reflexivity.
  - apply (Hnoorig (lit "ResourceClosedError")
             (lit "This result object does not return rows. It has been closed automatically.")).
    reflexivity.
Defined.

(** ** What the pattern extracts *)

Lemma space_star_result {A} (k : str -> option A) (s : str) (r : A) :
  Re.space_star k s = Some r ->
  exists ws s', s = ws ++ s' /\ forallb isspace ws = true /\ k s' = Some r.
Proof.
  induction s as [|c s IH]; cbn [Re.space_star].
  - intros H. exists [], []. auto.
  - destruct (isspace c) eqn:Hc.
    + destruct (Re.space_star k s) as [r'|] eqn:Hs.
      * intros [= ->]. destruct (IH eq_refl) as (ws & s' & -> & Hws & Hk).
        exists (c :: ws), s'. cbn [forallb]. rewrite Hc, Hws. auto.
      * intros H. exists [], (c :: s). auto.
    + intros H. exists [], (c :: s). auto.
Qed.

Lemma any_lazy_result {A} (k : str -> str -> option A) (acc s : str) (r : A) :
  Re.any_lazy k acc s = Some r ->
  exists g s', s = g ++ s' /\ k (acc ++ g) s' = Some r.
Proof.
  revert acc. induction s as [|c s IH]; intros acc; cbn [Re.any_lazy].
  - destruct (k acc []) eqn:Hk; [|discriminate].
    intros [= ->]. exists [], []. split; [reflexivity|].
    rewrite app_nil_r. exact Hk.
  - destruct (k acc (c :: s)) eqn:Hk.
    + intros [= ->]. exists [], (c :: s). split; [reflexivity|].
      rewrite app_nil_r. exact Hk.
    + intros H. destruct (IH _ H) as (g & s' & -> & Hg).
      exists (c :: g), s'. rewrite <- app_assoc in Hg. auto.
Qed.

Lemma match_here_result (s g : str) :
  Re.match_here s = Some g ->
  exists f ws1 ws2 post,
    s = f ++ ws1 ++ g ++ ws2 ++ Re.close_fence ++ post
    /\ fence_opens f
    /\ forallb isspace ws1 = true /\ forallb isspace ws2 = true.
Proof.
  unfold Re.match_here.
  destruct (Re.literals Re.open_fence s) as [s1|] eqn:Hopen; [|discriminate].
  apply literals_Some in Hopen as (f & -> & Hf).
  intros H. apply space_star_result in H as (ws1 & s2 & -> & Hws1 & H).
  apply any_lazy_result in H as (g' & s3 & -> & H).
  apply space_star_result in H as (ws2 & s4 & -> & Hws2 & H).
  destruct (Re.literals Re.close_fence s4) as [post|] eqn:Hclose; [|discriminate].
  injection H as <-.
  apply literals_Some in Hclose as (c & -> & Hc).
  apply close_fence_exact in Hc. subst c.
  exists f, ws1, ws2, post. auto.
Qed.

(** X8. Whatever [re.search] extracts lies in the response between an
    opening fence and a closing fence, with nothing but white space between
    it and the fences. *)
Theorem extracted_lies_between_fences (raw group1 : str) :
  Re.search raw = Some group1 ->
  exists pre f ws1 ws2 post,
    raw = pre ++ f ++ ws1 ++ group1 ++ ws2 ++ Re.close_fence ++ post
    /\ fence_opens f
    /\ forallb isspace ws1 = true /\ forallb isspace ws2 = true.
Proof.
  induction raw as [|c raw IH]; rewrite search_unfold;
    (destruct (Re.match_here _) as [g|] eqn:Hm;
     [ intros [= ->];
       destruct (match_here_result _ _ Hm) as (f & ws1 & ws2 & post & Hs & H);
       exists [], f, ws1, ws2, post; auto | ]).
  - discriminate.
  - intros H. destruct (IH H) as (pre & f & ws1 & ws2 & post & -> & Hrest).
    exists (c :: pre), f, ws1, ws2, post. auto.
Qed.

Lemma extracted_lies_between_fences_witness :
  exists pre f ws1 ws2 post,
    Sample.fenced_bad_column
    = pre ++ f ++ ws1 ++ lit "SELECT depth FROM wells" ++ ws2
          ++ Re.close_fence ++ post
    /\ fence_opens f
    /\ forallb isspace ws1 = true /\ forallb isspace ws2 = true.
Proof.
  apply (extracted_lies_between_fences Sample.fenced_bad_column).
  vm_compute. reflexivity.
Defined.

(** ** A fenced statement is extracted as it is *)

Lemma literals_not_backtick (p : str) (c : N) (s : str) :
  c <> 96 -> Re.literals (96 :: p) (c :: s) = None.
Proof.
  intros Hc. cbn [Re.literals].
  destruct (Re.literal_ignore 96 c) eqn:E; [|reflexivity].
  apply backtick_only in E. contradiction.
Qed.

Lemma close_not_backtick (g : str) (c : N) (s : str) :
  c <> 96 ->
  match Re.literals Re.close_fence (c :: s) with
  | Some _ => Some g
  | None => None
  end = None.
Proof.
  intros Hc. pose proof (literals_not_backtick [96; 96] c s Hc) as Hn.
  change (96 :: [96; 96]) with Re.close_fence in Hn. rewrite Hn. reflexivity.
Qed.

Lemma no_backtick_cons (c : N) (s : str) :
  no_backtick (c :: s) = true -> c <> 96 /\ no_backtick s = true.
Proof.
  unfold no_backtick. cbn [forallb]. intros H.
  apply andb_prop in H as [Hc Hs]. split; [|exact Hs].
  intros ->. discriminate Hc.
Qed.

Lemma space_star_head {A} (k : str -> option A) (s : str) :
  match s with [] => True | c :: _ => isspace c = false end ->
  Re.space_star k s = k s.
Proof. destruct s as [|c s]; [reflexivity|]. cbn [Re.space_star]. intros ->. reflexivity. Qed.

(** The greedy run keeps the longest white space that lets the rest match. *)
Lemma space_star_skip {A} (k : str -> option A) (ws s : str) (r : A) :
  forallb isspace ws = true ->
  Re.space_star k s = Some r ->
  Re.space_star k (ws ++ s) = Some r.
Proof.
  intros Hws Hs. induction ws as [|c ws IH]; [exact Hs|].
  cbn [forallb] in Hws. apply andb_prop in Hws as [Hc Hws].
  cbn [app Re.space_star]. rewrite Hc, (IH Hws). reflexivity.
Qed.

Lemma close_after_space (g ws post : str) :
  forallb isspace ws = true ->
  Re.space_star (close_k g) (ws ++ Re.close_fence ++ post) = Some g.
Proof.
  intros Hws. apply space_star_skip; [exact Hws|].
  rewrite space_star_head; [|reflexivity].
  assert (Hc : Re.literals Re.close_fence (Re.close_fence ++ post) = Some post).
  { apply literals_Some. exists Re.close_fence.
    split; [reflexivity | apply close_fence_matches]. }
  rewrite Hc. reflexivity.
Qed.

(** No closing fence can be matched from inside a text without backticks
    that ends in a character other than white space. *)
Lemma no_close_inside (g q0 : str) (c : N) (rest : str) :
  no_backtick (q0 ++ [c]) = true ->
  isspace c = false ->
  Re.space_star (close_k g) ((q0 ++ [c]) ++ rest) = None.
Proof.
  intros Hq Hc. induction q0 as [|d q0 IH].
  - apply no_backtick_cons in Hq as [Hc96 _].
    cbn [app Re.space_star]. rewrite Hc.
    apply (close_not_backtick g c rest Hc96).
  - cbn [app] in Hq. apply no_backtick_cons in Hq as [Hd Hq].
    cbn [app Re.space_star]. rewrite (IH Hq).
    rewrite (close_not_backtick g d ((q0 ++ [c]) ++ rest) Hd).
    destruct (isspace d); reflexivity.
Qed.

Lemma any_lazy_now {A} (k : str -> str -> option A) (acc s : str) (r : A) :
  k acc s = Some r -> Re.any_lazy k acc s = Some r.
Proof. intros H. destruct s; cbn [Re.any_lazy]; rewrite H; reflexivity. Qed.

Lemma lazy_group_whole (acc q0 : str) (c : N) (ws2 post : str) :
  no_backtick (q0 ++ [c]) = true ->
  isspace c = false ->
  forallb isspace ws2 = true ->
  Re.any_lazy (fun g s3 => Re.space_star (close_k g) s3) acc
              ((q0 ++ [c]) ++ ws2 ++ Re.close_fence ++ post)
  = Some (acc ++ q0 ++ [c]).
Proof.
  intros Hq Hc Hws. revert acc. induction q0 as [|d q0 IH]; intros acc.
  - cbn [app Re.any_lazy].
    pose proof (no_close_inside acc [] c (ws2 ++ Re.close_fence ++ post) Hq Hc)
      as Hn. cbn [app] in Hn. rewrite Hn.
    apply any_lazy_now. apply close_after_space, Hws.
  - pose proof (no_close_inside acc (d :: q0) c
                  (ws2 ++ Re.close_fence ++ post) Hq Hc) as Hn.
    cbn [app] in Hn. cbn [app Re.any_lazy]. rewrite Hn.
    cbn [app] in Hq. apply no_backtick_cons in Hq as [_ Hq].
    rewrite (IH Hq (acc ++ [d])), <- app_assoc. reflexivity.
Qed.

Lemma trimmed_head (q : str) :
  trimmed q -> match q with [] => True | c :: _ => isspace c = false end.
Proof. intros [H _]. exact H. Qed.

Lemma trimmed_strip (q : str) : trimmed q -> strip q = q.
Proof.
  intros [Hh Ht]. unfold strip, rstrip.
  assert (Hl : forall s, match s with [] => True | c :: _ => isspace c = false end ->
                         lstrip s = s).
  { intros [|c s]; [reflexivity|]. cbn [lstrip]. intros ->. reflexivity. }
  rewrite (Hl q Hh), (Hl (rev q) Ht). apply rev_involutive.
Qed.

Lemma match_here_fenced (f ws1 q ws2 post : str) :
  fence_opens f ->
  forallb isspace ws1 = true ->
  forallb isspace ws2 = true ->
  no_backtick q = true ->
  trimmed q ->
  Re.match_here (f ++ ws1 ++ q ++ ws2 ++ Re.close_fence ++ post) = Some q.
Proof.
  intros Hf Hws1 Hws2 Hq Htrim. unfold Re.match_here.
  assert (Hopen : Re.literals Re.open_fence
                    (f ++ ws1 ++ q ++ ws2 ++ Re.close_fence ++ post)
                  = Some (ws1 ++ q ++ ws2 ++ Re.close_fence ++ post)).
  { apply literals_Some. exists f. auto. }
  rewrite Hopen.
  destruct q as [|c q _] using rev_ind.
  - cbn [app]. rewrite app_assoc. apply space_star_skip.
    + rewrite forallb_app, Hws1, Hws2. reflexivity.
    + rewrite space_star_head; [|reflexivity].
      apply any_lazy_now. apply (close_after_space [] [] post). reflexivity.
  - apply space_star_skip; [exact Hws1|].
    assert (Hc : isspace c = false).
    { destruct Htrim as [_ Ht]. rewrite rev_unit in Ht. exact Ht. }
    rewrite space_star_head.
    + apply (lazy_group_whole [] q c ws2 post Hq Hc Hws2).
    + pose proof (trimmed_head _ Htrim) as Hh.
      destruct q as [|d q]; exact Hh.
Qed.

(** X9. A response made of text without backticks, an opening fence in any
    letter case, a statement without backticks that neither starts nor ends
    with white space, and a closing fence, with any white space around the
    statement, gives back exactly that statement, and [strip] leaves it as it
    is: the statement that is run is the one the model fenced. *)
Theorem fenced_statement_round_trip (pre f ws1 q ws2 post : str) :
  no_backtick pre = true ->
  fence_opens f ->
  forallb isspace ws1 = true ->
  forallb isspace ws2 = true ->
  no_backtick q = true ->
  trimmed q ->
  Re.search (pre ++ f ++ ws1 ++ q ++ ws2 ++ Re.close_fence ++ post) = Some q
  /\ strip q = q.
Proof.
  intros Hpre Hf Hws1 Hws2 Hq Htrim. split; [|apply trimmed_strip, Htrim].
  induction pre as [|c pre IH].
  - rewrite app_nil_l, search_unfold.
    rewrite (match_here_fenced f ws1 q ws2 post Hf Hws1 Hws2 Hq Htrim).
    reflexivity.
  - apply no_backtick_cons in Hpre as [Hc Hpre].
    rewrite <- app_comm_cons, search_unfold. unfold Re.match_here.
    pose proof (literals_not_backtick (lit "``sql") c
                  (pre ++ f ++ ws1 ++ q ++ ws2 ++ Re.close_fence ++ post) Hc)
      as Hn.
    change (96 :: lit "``sql") with Re.open_fence in Hn. rewrite Hn.
    apply IH, Hpre.
Qed.

Lemma fenced_statement_round_trip_witness :
  Re.search (lit "Here is the query:" ++ nl ++ lit "```SQL" ++ nl
             ++ lit "SELECT COUNT(*) FROM wells;" ++ nl ++ lit "```"
             ++ lit " It counts the rows.")
  = Some (lit "SELECT COUNT(*) FROM wells;").
Proof.
  apply (fenced_statement_round_trip
           (lit "Here is the query:" ++ nl) (lit "```SQL") nl
           (lit "SELECT COUNT(*) FROM wells;") nl
           (lit " It counts the rows.")).
  - reflexivity.
  - repeat constructor.
  - reflexivity.
  - reflexivity.
  - reflexivity.
  - split; reflexivity.
Defined.

(** ** File names *)

Lemma rfind_from_spec (c : N) (p : str) (i last : Z) :
  (Path.rfind_from c p i last = last /\ ~ In c p)
  \/ exists a b,
      p = a ++ c :: b
      /\ Path.rfind_from c p i last = (i + Z.of_nat (length a))%Z
      /\ ~ In c b.
Proof.
  revert i last. induction p as [|x p IH]; intros i last.
  - left. split; [reflexivity | intros []].
  - cbn [Path.rfind_from].
    destruct (IH (i + 1)%Z (if x =? c then i else last))
      as [[Hr Hn] | (a & b & -> & Hr & Hn)].
    + destruct (x =? c) eqn:Hx.
      * apply N.eqb_eq in Hx. subst x. right. exists [], p.
        rewrite Hr. cbn [length app]. split; [reflexivity|].
        split; [lia | exact Hn].
      * left. rewrite Hr. split; [reflexivity|].
        intros [-> | Hin]; [rewrite N.eqb_refl in Hx; discriminate | auto].
    + right. exists (x :: a), b. rewrite Hr. cbn [length app].
      split; [reflexivity|]. split; [lia | exact Hn].
Qed.

Lemma rfind_spec (c : N) (p : str) :
  (Path.rfind c p = (-1)%Z /\ ~ In c p)
  \/ exists a b,
      p = a ++ c :: b /\ Path.rfind c p = Z.of_nat (length a) /\ ~ In c b.
Proof.
  unfold Path.rfind.
  destruct (rfind_from_spec c p 0 (-1)) as [H | (a & b & Hp & Hr & Hn)];
    [left; exact H|].
  right. exists a, b. rewrite Hr. auto.
Qed.

Lemma name_before_dot_steps (p : str) (i n : nat) :
  Path.name_before_dot p i n = true -> (0 < n)%nat.
Proof. destruct n; [discriminate | lia]. Qed.

Lemma splitext_shape (p : str) :
  fst (Path.splitext p) ++ snd (Path.splitext p) = p
  /\ (snd (Path.splitext p) = []
      \/ exists e,
          snd (Path.splitext p) = 46 :: e
          /\ ~ In 46 e /\ ~ In 47 e
          /\ fst (Path.splitext p) <> []).
Proof.
  unfold Path.splitext.
  destruct (Path.rfind 47 p <? Path.rfind 46 p)%Z eqn:Hlt;
    [|cbn [fst snd]; rewrite app_nil_r; auto].
  destruct (Path.name_before_dot _ _ _) eqn:Hname;
    [|cbn [fst snd]; rewrite app_nil_r; auto].
  cbn [fst snd]. split; [apply take_drop|]. right.
  apply Z.ltb_lt in Hlt. apply name_before_dot_steps in Hname.
  destruct (rfind_spec 46 p) as [[Hd _] | (a & b & Hp & Hd & Hnb)].
  { destruct (rfind_spec 47 p) as [[Hs _] | (a' & b' & _ & Hs & _)]; lia. }
  rewrite Hd in *. rewrite Nat2Z.id.
  assert (Hdrop : drop (length a) p = 46 :: b).
  { rewrite Hp, drop_app_length. reflexivity. }
  assert (Htake : take (length a) p = a).
  { rewrite Hp, take_app_length. reflexivity. }
  rewrite Hdrop, Htake. exists b. split; [reflexivity|]. split; [exact Hnb|].
  split.
  - destruct (rfind_spec 47 p) as [[_ Hn] | (a' & b' & Hp' & Hs & Hnb')].
    + intros Hin. apply Hn. rewrite Hp. apply in_or_app. right. right. exact Hin.
    + rewrite Hs in Hlt. intros Hin. apply Hnb'.
      assert (Hb' : b' = drop (S (length a')) p).
      { rewrite Hp'. change (47 :: b') with ([47] ++ b').
        rewrite app_assoc.
        replace (S (length a')) with (length (a' ++ [47]))
          by (rewrite length_app; cbn; lia).
        rewrite drop_app_length. reflexivity. }
      assert (Hb : b = drop (S (length a)) p).
      { rewrite Hp. change (46 :: b) with ([46] ++ b).
        rewrite app_assoc.
        replace (S (length a)) with (length (a ++ [46]))
          by (rewrite length_app; cbn; lia).
        rewrite drop_app_length. reflexivity. }
      rewrite Hb', <- (take_drop (length a - length a')
                                 (drop (S (length a')) p)).
      apply in_or_app. right. rewrite drop_drop.
      replace (S (length a') + (length a - length a'))%nat
        with (S (length a)) by lia.
      rewrite <- Hb. exact Hin.
  - intros ->. cbn [length] in Hname.
    destruct (rfind_spec 47 p) as [[Hs _] | (a' & b' & _ & Hs & _)];
      rewrite Hs in Hname; lia.
Qed.

(** X10. [splitext] cuts a name in two parts that give the name back; the
    extension is empty, or it is a period followed by characters that are
    neither a period nor a slash, and then the root is not empty. *)
Theorem splitext_parts (p : str) :
  fst (Path.splitext p) ++ snd (Path.splitext p) = p
  /\ (snd (Path.splitext p) = []
      \/ exists e,
          snd (Path.splitext p) = 46 :: e
          /\ ~ In 46 e /\ ~ In 47 e
          /\ fst (Path.splitext p) <> []).
Proof. exact (splitext_shape p). Qed.

(** X11. The table name of an upload holds no space and no hyphen and is as
    long as the root of the file name; it is that root exactly when the root
    holds neither (only then do the upload route and the conversion script,
    which stores under the root, name the same table). *)
Theorem table_name_normalized (filename : str) :
  ~ In 32 (table_name filename)
  /\ ~ In 45 (table_name filename)
  /\ length (table_name filename) = length (fst (Path.splitext filename))
  /\ (table_name filename = fst (Path.splitext filename)
      <-> plain_name (fst (Path.splitext filename)) = true).
Proof.
  rewrite table_name_map. generalize (fst (Path.splitext filename)) as root.
  intros root. split; [|split; [|split]].
  - intros Hin. apply in_map_iff in Hin as (c & Hc & _).
    destruct (c =? 32) eqn:E1; cbn [orb] in Hc; [discriminate Hc|].
    destruct (c =? 45); [discriminate Hc|].
    subst c. discriminate E1.
  - intros Hin. apply in_map_iff in Hin as (c & Hc & _).
    destruct (c =? 32) eqn:E1; cbn [orb] in Hc; [discriminate Hc|].
    destruct (c =? 45) eqn:E2; [discriminate Hc|].
    subst c. discriminate E2.
  - apply length_map.
  - unfold plain_name. induction root as [|c root IH]; [split; reflexivity|].
    cbn [List.map forallb]. split.
    + intros [= Hc Hr]. apply IH in Hr. rewrite Hr, andb_true_r.
      destruct ((c =? 32) || (c =? 45)) eqn:E; [|reflexivity].
      subst c. discriminate E.
    + intros H. apply andb_prop in H as [Hc Hr].
      destruct ((c =? 32) || (c =? 45)); [discriminate Hc|].
      f_equal. apply IH, Hr.
Qed.

Section UploadWhole.

Context {Cell : Type} (pd : Pandas Cell).

Lemma read_frame_has_ext f :
  read_frame pd f <> None -> snd (Path.splitext (filename f)) <> [].
Proof.
  unfold read_frame. intros H He. rewrite He in H. apply H. reflexivity.
Qed.

(** X12. A file that the upload route accepts (its extension is [.csv] or
    [.xlsx] in any letter case) never gets an empty table name. *)
Theorem accepted_upload_has_name f :
  read_frame pd f <> None -> table_name (filename f) <> [].
Proof.
  intros H. apply read_frame_has_ext in H.
  destruct (splitext_shape (filename f)) as [_ [He | (e & _ & _ & _ & Hroot)]];
    [contradiction|].
  intros Hn. apply Hroot. rewrite table_name_map in Hn.
  destruct (fst (Path.splitext (filename f))); [reflexivity | discriminate Hn].
Qed.

(** Files that were stored are followed by the rest of the loop. *)
Lemma upload_loop_app done rest db db1 :
  upload_loop pd done db = (Ret uploaded, db1) ->
  upload_loop pd (done ++ rest) db = upload_loop pd rest db1.
Proof.
  revert db. induction done as [|f done IH]; intros db H.
  - injection H as <-. reflexivity.
  - destruct (upload_loop_step pd f done db uploaded db1 H eq_refl)
      as (df & Hread & Hrest).
    cbn [app upload_loop]. rewrite Hread, to_sql_replace.
    cbn [upload_loop] in H. rewrite Hread, to_sql_replace in H.
    destruct (create_raises pd _ _); [discriminate H|].
    apply IH, Hrest.
Qed.

(** X13. The upload stops at the first file it cannot take: after files that
    were stored, a file with another extension gives 400 naming that
    extension, and a file that pandas cannot read raises; either way the
    earlier tables stay stored and the later files are not looked at. *)
Theorem upload_stops_at_first_failure done bad rest db db1 :
  upload_loop pd done db = (Ret uploaded, db1) ->
  (read_frame pd bad = None ->
   upload_files pd (done ++ bad :: rest) db
   = (Ret {| resp_body :=
               ErrorBody (lit "Unsupported file type "
                          ++ snd (Path.splitext (filename bad)));
             status := 400 |}, db1))
  /\ (forall e,
         read_frame pd bad = Some (Raise e) ->
         upload_files pd (done ++ bad :: rest) db = (Raise e, db1)).
Proof.
  intros Hdone.
  assert (Hfiles : upload_files pd (done ++ bad :: rest) db
                   = upload_loop pd (bad :: rest) db1).
  { rewrite <- (upload_loop_app done (bad :: rest) db db1 Hdone).
    unfold upload_files. destruct (done ++ bad :: rest) eqn:E; [|reflexivity].
    destruct done; discriminate E. }
  rewrite Hfiles. cbn [upload_loop]. split.
  - intros ->. reflexivity.
  - intros e ->. reflexivity.
Qed.

(** X14. Whatever the outcome of an upload, a table that no uploaded file
    names is left as it was. *)
Theorem upload_leaves_other_tables files db name :
  (forall g, In g files -> table_name (filename g) <> name) ->
  snd (upload_files pd files db) !! name = db !! name.
Proof.
  intros Hother.
  assert (Hloop : forall db0,
             snd (upload_loop pd files db0) !! name = db0 !! name).
  { induction files as [|f rest IH]; intros db0; [reflexivity|].
    cbn [upload_loop].
    destruct (read_frame pd f) as [[df|e]|]; try reflexivity.
    rewrite to_sql_replace.
    destruct (create_raises pd _ _).
    - cbn [snd]. apply lookup_delete_ne. apply Hother. left. reflexivity.
    - rewrite IH.
      + apply lookup_insert_ne. apply Hother. left. reflexivity.
      + intros g Hg. apply Hother. right. exact Hg. }
  unfold upload_files. destruct files; [reflexivity | apply Hloop].
Qed.

(** X15. The upload answers that the files were uploaded exactly when there
    is at least one file and every file can be read and stored. *)
Theorem upload_succeeds_iff files db :
  (exists db', upload_files pd files db = (Ret uploaded, db'))
  <-> files <> [] /\ Forall (stores pd) files.
Proof.
  assert (Hloop : forall db0,
             (exists db', upload_loop pd files db0 = (Ret uploaded, db'))
             <-> Forall (stores pd) files).
  { induction files as [|f rest IH]; intros db0.
    - split; [constructor | intros _; eexists; reflexivity].
    - split.
      + intros [db' H].
        destruct (upload_loop_step pd f rest db0 uploaded db' H eq_refl)
          as (df & Hread & Hrest).
        constructor.
        * exists df. split; [exact Hread|].
          cbn [upload_loop] in H. rewrite Hread, to_sql_replace in H. destruct (create_raises pd _ _); [discriminate H|].
          reflexivity.
        * exact (proj1 (IH _) (ex_intro _ db' Hrest)).
      + intros H. inversion H as [|? ? (df & Hread & Hcreate) Hrest]; subst.
        cbn [upload_loop]. rewrite Hread, to_sql_replace.
        rewrite Hcreate. apply IH, Hrest. }
  unfold upload_files. destruct files as [|f rest].
  - split; [intros [db' H]; discriminate H | intros [H _]; congruence].
  - rewrite Hloop. split; [intros H; split; [discriminate | exact H] | tauto].
Qed.

End UploadWhole.

Lemma accepted_upload_has_name_witness :
  table_name (filename Sample.rainfall_file) <> [].
Proof.
  apply (accepted_upload_has_name Sample.pandas Sample.rainfall_file).
  vm_compute. discriminate.
Defined.

Lemma upload_stops_at_first_failure_witness :
  upload_files Sample.pandas
               [Sample.rainfall_file; Sample2.notes_file; Sample.rainfall_file]
               ∅
  = (Ret {| resp_body := ErrorBody (lit "Unsupported file type .txt");
            status := 400 |},
     {[ lit "Rainfall_Data_2023" :=
          {| t_columns := [lit "State"; lit "Recharge from Rainfall-MON"];
             t_rows := [[lit "Goa"; lit "12.5"]] |} ]}).
Proof.
  destruct (upload_stops_at_first_failure Sample.pandas
              [Sample.rainfall_file] Sample2.notes_file [Sample.rainfall_file]
              ∅
              {[ lit "Rainfall_Data_2023" :=
                   {| t_columns := [lit "State"; lit "Recharge from Rainfall-MON"];
                      t_rows := [[lit "Goa"; lit "12.5"]] |} ]})
    as [Hbad _].
  - reflexivity.
  - apply Hbad. vm_compute. reflexivity.
Defined.

Lemma upload_leaves_other_tables_witness :
  snd (upload_files Sample.pandas [Sample.rainfall_file] Sample.old_tables)
    !! lit "wells"
  = Sample.old_tables !! lit "wells".
Proof.
  apply (upload_leaves_other_tables Sample.pandas [Sample.rainfall_file]
           Sample.old_tables (lit "wells")).
  intros g [<- | []]. vm_compute. discriminate.
Defined.

(** ** The conversion script *)

Section ConvertFacts.

Context {Cell : Type} (pd : Pandas Cell) (disk : Disk Cell).

Lemma convert_loop_other filenames db out name :
  (forall g, In g filenames -> read_frame_at disk g <> None ->
             fst (Path.splitext g) <> name) ->
  snd (fst (convert_loop pd disk filenames db out)) !! name = db !! name.
Proof.
  revert db out. induction filenames as [|f rest IH]; intros db out Hother;
    [reflexivity|].
  assert (Hrest : forall g, In g rest -> read_frame_at disk g <> None ->
                            fst (Path.splitext g) <> name).
  { intros g Hg. apply Hother. right. exact Hg. }
  cbn [convert_loop].
  destruct (read_frame_at disk f) as [[df|e]|] eqn:Hread.
  - assert (Hf : fst (Path.splitext f) <> name).
    { apply Hother; [left; reflexivity | rewrite Hread; discriminate]. }
    rewrite to_sql_replace.
    destruct (create_raises pd _ _).
    + cbn [fst snd]. apply lookup_delete_ne, Hf.
    + rewrite (IH _ _ Hrest). apply lookup_insert_ne, Hf.
  - reflexivity.
  - apply (IH _ _ Hrest).
Qed.




(** X17. Whatever happens to the script, a table is left as it was unless a
    listed file with a supported extension has its name as root. *)
Theorem convert_script_leaves_other_tables db name :
  (forall filenames g,
      listdir disk CSV_XLSX_DIR = Ret filenames ->
      In g filenames -> read_frame_at disk g <> None ->
      fst (Path.splitext g) <> name) ->
  snd (fst (convert_script pd disk db)) !! name = db !! name.
Proof.
  intros Hother. unfold convert_script.
  destruct (listdir disk CSV_XLSX_DIR) as [filenames|e]; [|reflexivity].
  pose proof (convert_loop_other filenames db [] name
                (fun g => Hother filenames g eq_refl)) as H.
  destruct (convert_loop pd disk filenames db []) as [[[u|e] db'] out];
    exact H.
Qed.

End ConvertFacts.


Lemma convert_script_leaves_other_tables_witness :
  snd (fst (convert_script Sample.pandas Sample2.disk Sample.old_tables))
    !! lit "Rainfall_Data_2023"
  = Sample.old_tables !! lit "Rainfall_Data_2023".
Proof.
  apply (convert_script_leaves_other_tables Sample.pandas Sample2.disk
           Sample.old_tables (lit "Rainfall_Data_2023")).
  intros filenames g [= <-] [<- | [<- | []]] Hsup.
  - vm_compute. discriminate.
  - exfalso. apply Hsup. vm_compute. reflexivity.
Defined.
